(** * Password analyzer and generator: a shallow embedding

    This development embeds the functions of
    [Password_Analyzer_and_Generator/password_analyzer.py] in Rocq and
    settles the properties its specification states about them.

    Conventions of the embedding:
    - a Python [str] is a list of Unicode code points ([pystr]); the
      constant messages the analyzer emits (remarks, level names) are kept
      as Rocq strings, since the code never inspects them;
    - a Python [int] is a [Z];
    - the primitives of the Python runtime the code calls but does not
      define ([float] arithmetic, [math.log2], [round], [str.lower]) are the
      fields of the class [Runtime];
    - [secrets.choice] draws from an explicit entropy tape, threaded through
      a small state-and-exception monad. *)

From Stdlib Require Import ZArith NArith List Bool Lia Reals Lra DecimalString.
From stdpp Require Import base decidable list strings gmap.

Local Open Scope Z_scope.

(** ** Strings *)

(** A character is its Unicode code point. *)
Definition char := N.

(** A Python [str]. *)
Definition pystr := list char.

(** The code points of a string literal of the source (ASCII only). *)
Definition lit (s : string) : pystr :=
  map Ascii.N_of_ascii (String.list_ascii_of_string s).

(** [len(s)] *)
Definition len (s : pystr) : Z := Z.of_nat (length s).

(** ** Character classes of the regular expressions

    The patterns are compiled without flags, so a range is a range of code
    points and nothing else. *)

(** [[a-z]] *)
Definition is_lower (c : char) : bool := ((97 <=? c) && (c <=? 122))%N.

(** [[A-Z]] *)
Definition is_upper (c : char) : bool := ((65 <=? c) && (c <=? 90))%N.

(** [[0-9]] *)
Definition is_digit (c : char) : bool := ((48 <=? c) && (c <=? 57))%N.

(** [[^a-zA-Z0-9]]: a negated class, which also matches a line feed. *)
Definition is_symbol (c : char) : bool :=
  negb (is_lower c || is_upper c || is_digit c).

(** [.] without [re.DOTALL]: every character but the line feed. *)
Definition is_dot (c : char) : bool := negb (c =? 10)%N.

(** [re.search(cls, s) is not None] for a pattern that is one character
    class: some character of [s] is in the class. *)
Definition re_search_class (cls : char -> bool) (s : pystr) : bool :=
  existsb cls s.

(** [re.search(r"(.)\1\1", pwd) is not None]: the scan tries every start
    position from the left; at a position the group takes one character
    matched by [.] and the two back-references each demand the same
    character again. *)
Fixpoint has_repeated_sequence (pwd : pystr) : bool :=
  match pwd with
  | a :: ((b :: c :: _) as rest) =>
      (is_dot a && (b =? a)%N && (c =? a)%N) || has_repeated_sequence rest
  | _ => false
  end.

(** [s.startswith(p)] *)
Fixpoint starts_with (p s : pystr) : bool :=
  match p, s with
  | [], _ => true
  | _ :: _, [] => false
  | x :: p', y :: s' => (x =? y)%N && starts_with p' s'
  end.

(** [p in s] for two strings: [p] occurs in [s] as a contiguous substring. *)
Fixpoint str_contains (p s : pystr) : bool :=
  starts_with p s ||
  match s with
  | [] => false
  | _ :: s' => str_contains p s'
  end.

(** The list [patterns] of [is_keyboard_pattern]. *)
Definition patterns : list pystr :=
  map lit ["qwerty"; "asdf"; "1234"; "password"; "abcd"; "1111"]%string.

(** ** The runtime primitives the analyzer relies on

    The analyzer calls into the Python runtime for its floating-point
    arithmetic and for case folding.  Their code is not part of the
    program; the embedding takes them through an interface. *)
Class Runtime := {
  (** the type of Python floats *)
  float : Type;
  (** the literal [0.0] *)
  float_zero : float;
  (** the coercion applied to an [int] operand that meets a [float] *)
  float_of_int : Z -> float;
  (** [x * y] on floats *)
  float_mul : float -> float -> float;
  (** [x >= y] on floats *)
  float_ge : float -> float -> bool;
  (** [math.log2(n)] of an [int] *)
  math_log2 : Z -> float;
  (** [round(x, ndigits)] *)
  float_round : float -> Z -> float;
  (** [s.lower()] *)
  str_lower : pystr -> pystr;
}.

(** Order facts of IEEE-754 arithmetic with correct rounding, as far as the
    analyzer depends on them: scaling a non-negative float by a larger
    positive integer does not make it smaller, the logarithm of a positive
    integer is not negative, and rounding to a number of digits is
    monotone. *)
Class RuntimeLaws (R : Runtime) : Prop := {
  float_mul_of_int_mono : forall (m n : Z) (c : float),
    1 <= m -> m <= n -> float_ge c float_zero = true ->
    float_ge (float_mul (float_of_int n) c) (float_mul (float_of_int m) c) = true;
  math_log2_nonneg : forall n : Z,
    1 <= n -> float_ge (math_log2 n) float_zero = true;
  float_round_mono : forall (x y : float) (d : Z),
    float_ge y x = true -> float_ge (float_round y d) (float_round x d) = true;
}.

(** ** The analyzer *)

(** The two locals [score] and [remarks] that [check_strength] updates in
    place, and its flag [blacklisted]. *)
Record locals := {
  score : Z;
  remarks : list string;
  blacklisted : bool;
}.

(** [score += k] *)
Definition add_score (k : Z) (st : locals) : locals :=
  {| score := score st + k; remarks := remarks st; blacklisted := blacklisted st |}.

(** [remarks.append(r)] *)
Definition append_remark (r : string) (st : locals) : locals :=
  {| score := score st; remarks := remarks st ++ [r]; blacklisted := blacklisted st |}.

(** [blacklisted = True] *)
Definition set_blacklisted (st : locals) : locals :=
  {| score := score st; remarks := remarks st; blacklisted := true |}.

Section Analyzer.
Context {R : Runtime}.

(** The dictionary [check_strength] returns. *)
Record analysis := {
  a_password : pystr;
  a_length : Z;
  a_entropy : float;
  a_score : Z;
  a_level : string;
  a_remarks : list string;
  a_timestamp : string;
}.

(** The local [pool] of [calculate_entropy] when the four tests are done. *)
Definition entropy_pool (password : pystr) : Z :=
  let pool := 0 in
  let pool := if re_search_class is_lower password then pool + 26 else pool in
  let pool := if re_search_class is_upper password then pool + 26 else pool in
  let pool := if re_search_class is_digit password then pool + 10 else pool in
  let pool := if re_search_class is_symbol password then pool + 32 else pool in
  pool.

Definition calculate_entropy (password : pystr) : float :=
  let pool := entropy_pool password in
  if (pool =? 0) || (len password =? 0) then float_zero
  else
    let entropy := float_mul (float_of_int (len password)) (math_log2 pool) in
    float_round entropy 2.

Definition is_keyboard_pattern (pwd : pystr) : bool :=
  let lowered := str_lower pwd in
  existsb (fun p => str_contains p lowered) patterns.

(** The condition [blacklist is not None and password.lower() in blacklist];
    [blacklist] is [None] for the default argument. *)
Definition blacklist_hit (password : pystr) (blacklist : option (gset pystr)) : bool :=
  match blacklist with
  | None => false
  | Some bl => bool_decide (str_lower password ∈ bl)
  end.

(** [check_strength] from its first line to the end of the blacklist
    test: the state of the locals when the entropy is about to be
    computed. *)
Definition scoring (password : pystr) (blacklist : option (gset pystr)) : locals :=
  let st := {| score := 0; remarks := []; blacklisted := false |} in
  (* Length scoring *)
  let st :=
    if len password >=? 16 then add_score 3 st
    else if len password >=? 12 then add_score 2 st
    else if len password >=? 8 then add_score 1 st
    else append_remark "Too short (min 8 chars)" st in
  (* Character variety *)
  let st :=
    if re_search_class is_lower password then add_score 1 st
    else append_remark "Add lowercase letters" st in
  let st :=
    if re_search_class is_upper password then add_score 1 st
    else append_remark "Add uppercase letters" st in
  let st :=
    if re_search_class is_digit password then add_score 1 st
    else append_remark "Add digits" st in
  let st :=
    if re_search_class is_symbol password then add_score 1 st
    else append_remark "Add symbols (!, @, #, etc.)" st in
  (* Penalties *)
  let st :=
    if has_repeated_sequence password
    then add_score (-1) (append_remark "Contains repeated characters" st)
    else st in
  let st :=
    if is_keyboard_pattern password
    then add_score (-1) (append_remark "Contains common pattern (qwerty/1234)" st)
    else st in
  (* Blacklist *)
  let st :=
    if blacklist_hit password blacklist
    then add_score (-2)
           (append_remark "Found in common-password blacklist"
              (set_blacklisted st))
    else st in
  st.

(** The two clamping statements that follow the entropy calculation. *)
Definition clamp_score (score : Z) : Z :=
  let score := if score <? 0 then 0 else score in
  let score := if score >? 8 then 8 else score in
  score.

(** The strength level chain.  The thresholds are [int] literals; the
    comparison takes each at its exact value, which is the float it
    converts to. *)
Definition strength_level (blacklisted : bool) (entropy : float) (score : Z) : string :=
  if blacklisted then "Very Weak"
  else if float_ge entropy (float_of_int 80) && (score >=? 6) then "Strong"
  else if float_ge entropy (float_of_int 50) && (score >=? 4) then "Medium"
  else "Weak".

(** [check_strength(password, blacklist)]; [now] is the formatted reading
    of the clock, which is only copied into the result. *)
Definition check_strength (password : pystr) (blacklist : option (gset pystr))
    (now : string) : analysis :=
  let st := scoring password blacklist in
  let entropy := calculate_entropy password in
  let score := clamp_score (score st) in
  let level := strength_level (blacklisted st) entropy score in
  {| a_password := password;
     a_length := len password;
     a_entropy := entropy;
     a_score := score;
     a_level := level;
     a_remarks := remarks st;
     a_timestamp := now |}.

End Analyzer.

Arguments analysis : clear implicits.

(** ** The generator *)

(** The system entropy source behind [secrets]: a tape of numbers and the
    position of the next unread one. *)
Record rng := {
  tape : nat -> nat;
  pos : nat;
}.

(** The exception the generator's calls can raise. *)
Inductive exn :=
| IndexError.

(** Computations that read the entropy source and may raise. *)
Definition gen (A : Type) : Type := rng -> (exn + A) * rng.

Definition gen_raise {A} (e : exn) : gen A := fun r => (inl e, r).

#[export] Instance gen_ret : MRet gen := fun A x r => (inr x, r).

#[export] Instance gen_bind : MBind gen := fun A B k m r =>
  match m r with
  | (inl e, r') => (inl e, r')
  | (inr x, r') => k x r'
  end.

(** [secrets.randbelow(n)] for a positive [n]: the next number of the tape,
    reduced below [n]. *)
Definition randbelow (n : nat) : gen nat :=
  fun r => (inr (tape r (pos r) mod n)%nat, {| tape := tape r; pos := S (pos r) |}).

(** [secrets.choice(seq)] *)
Definition secrets_choice (seq : pystr) : gen char :=
  match seq with
  | [] => gen_raise IndexError
  | _ :: _ =>
      i ← randbelow (length seq);
      match seq !! i with
      | Some c => mret c
      | None => gen_raise IndexError
      end
  end.

(** [[m for _ in range(n)]]: the generator expression, run [n] times from
    left to right. *)
Fixpoint gen_repeat {A} (n : nat) (m : gen A) : gen (list A) :=
  match n with
  | O => mret []
  | S n' => x ← m; xs ← gen_repeat n' m; mret (x :: xs)
  end.

(** [range(length)] has [length] elements, and none when [length <= 0]. *)
Definition range_size (length : Z) : nat := Z.to_nat length.

(** [string.ascii_lowercase], [string.ascii_uppercase], [string.digits] and
    the literal of symbols. *)
Definition ascii_lowercase : pystr := lit "abcdefghijklmnopqrstuvwxyz".
Definition ascii_uppercase : pystr := lit "ABCDEFGHIJKLMNOPQRSTUVWXYZ".
Definition digits : pystr := lit "0123456789".
Definition symbols : pystr := lit "!@#$%^&*()-_=+[]{};:,.<>/?".

(** The local [charset] of [generate_password] when the three flags have
    been looked at. *)
Definition gen_charset (use_upper use_digits use_symbols : bool) : pystr :=
  let charset := ascii_lowercase in
  let charset := if use_upper then charset ++ ascii_uppercase else charset in
  let charset := if use_digits then charset ++ digits else charset in
  let charset := if use_symbols then charset ++ symbols else charset in
  charset.

(** [generate_password(length, use_upper, use_digits, use_symbols)]; the
    join of one-character strings is the list of the characters. *)
Definition generate_password (length : Z) (use_upper use_digits use_symbols : bool)
    : gen pystr :=
  let charset := gen_charset use_upper use_digits use_symbols in
  gen_repeat (range_size length) (secrets_choice charset).

(** ** The command-line program

    The rest of the file: the blacklist loader, the report printer and
    [main].  They act on the file system, the two standard streams, the
    entropy source and the clock; the embedding threads these through a
    state-and-exception monad. *)

(** The primitives of the host the program calls besides those of
    [Runtime]. *)
Class Host (R : Runtime) := {
  (** [s.strip()] *)
  str_strip : pystr -> pystr;
  (** the text an f-string inserts for a float *)
  float_str : float -> pystr;
  (** [os.path.join(base_dir, path)], [base_dir] being the directory of the
      script *)
  script_dir_join : pystr -> pystr;
  (** [datetime.now().strftime("%Y-%m-%d %H:%M:%S")] at the n-th reading of
      the clock *)
  strftime_now : nat -> string;
}.

(** The text an f-string inserts for an [int]: its decimal digits. *)
Definition int_str (z : Z) : pystr :=
  lit (NilZero.string_of_int (Z.to_int z)).

(** What the program writes to the standard output: the argument of a
    [print], which ends the line, or the prompt of an [input], which does
    not. *)
Inductive output :=
| Printed (s : pystr)
| Prompted (s : pystr).

(** The world the program runs in: the lines of every regular file, by
    path; the lines still to be typed; what was written so far; the entropy
    source; the number of readings of the clock so far. *)
Record world := {
  w_files : pystr -> option (list pystr);
  w_stdin : list pystr;
  w_stdout : list output;
  w_rng : rng;
  w_clock : nat;
}.

(** The world after more output. *)
Definition add_out (w : world) (os : list output) : world :=
  {| w_files := w_files w; w_stdin := w_stdin w;
     w_stdout := w_stdout w ++ os;
     w_rng := w_rng w; w_clock := w_clock w |}.

(** The world after one more reading of the clock. *)
Definition tick (w : world) : world :=
  {| w_files := w_files w; w_stdin := w_stdin w; w_stdout := w_stdout w;
     w_rng := w_rng w; w_clock := S (w_clock w) |}.

(** The world with another state of the entropy source. *)
Definition set_rng (w : world) (r : rng) : world :=
  {| w_files := w_files w; w_stdin := w_stdin w; w_stdout := w_stdout w;
     w_rng := r; w_clock := w_clock w |}.

(** The world with other lines left to type. *)
Definition set_stdin (w : world) (lines : list pystr) : world :=
  {| w_files := w_files w; w_stdin := lines; w_stdout := w_stdout w;
     w_rng := w_rng w; w_clock := w_clock w |}.

(** What ends the program early: [sys.exit(code)] or an exception. *)
Inductive signal :=
| SystemExit (code : Z)
| EOFError
| FileNotFoundError
| Raised (e : exn).

Definition io (A : Type) : Type := world -> (signal + A) * world.

Definition io_raise {A} (e : signal) : io A := fun w => (inl e, w).

#[export] Instance io_ret : MRet io := fun A x w => (inr x, w).

#[export] Instance io_bind : MBind io := fun A B k m w =>
  match m w with
  | (inl e, w') => (inl e, w')
  | (inr x, w') => k x w'
  end.

(** [print(s)].  The write is taken to succeed: a standard output that
    cannot take the text (a closed stream, an encoding without the
    character) is outside the world. *)
Definition py_print (s : pystr) : io unit :=
  fun w => (inr tt, add_out w [Printed s]).

(** One line of the standard input; at its end, [EOFError]. *)
Definition read_line : io pystr :=
  fun w =>
    match w_stdin w with
    | [] => (inl EOFError, w)
    | line :: rest => (inr line, set_stdin w rest)
    end.

(** [input(prompt)]: writes the prompt and reads one line. *)
Definition py_input (prompt : pystr) : io pystr :=
  fun w => read_line (add_out w [Prompted prompt]).

(** [sys.exit(code)] *)
Definition sys_exit {A} (code : Z) : io A := io_raise (SystemExit code).

(** [os.path.isfile(path)] *)
Definition os_path_isfile (path : pystr) : io bool :=
  fun w => (inr (bool_decide (is_Some (w_files w path))), w).

(** The lines [for line in f] yields for the file opened at [path]. *)
Definition read_lines (path : pystr) : io (list pystr) :=
  fun w =>
    match w_files w path with
    | Some lines => (inr lines, w)
    | None => (inl FileNotFoundError, w)
    end.

(** A computation on the entropy source, run on the one of the world. *)
Definition io_gen {A} (m : gen A) : io A :=
  fun w =>
    match m (w_rng w) with
    | (inl e, r') => (inl (Raised e), set_rng w r')
    | (inr x, r') => (inr x, set_rng w r')
    end.

(** [for x in xs: body(x)] *)
Fixpoint io_for {A} (xs : list A) (body : A -> io unit) : io unit :=
  match xs with
  | [] => mret tt
  | x :: xs' => _ ← body x; io_for xs' body
  end.

(** The truth value of a string: non-empty. *)
Definition truthy (s : pystr) : bool :=
  match s with [] => false | _ :: _ => true end.

(** The truth value of a list: non-empty. *)
Definition truthy_list {A} (l : list A) : bool :=
  match l with [] => false | _ :: _ => true end.

(** The truth value of an optional argument: given, and a true string. *)
Definition truthy_arg (a : option pystr) : bool :=
  match a with None => false | Some s => truthy s end.

(** The namespace [parse_args] returns. *)
Record namespace := {
  args_password : option pystr;
  args_file : option pystr;
  args_generate : bool;
  args_gen_length : Z;
  args_no_upper : bool;
  args_no_digits : bool;
  args_no_symbols : bool;
  args_blacklist : pystr;
}.

Section Program.
Context {R : Runtime} {H : Host R}.

(** One reading of the clock. *)
Definition read_clock : io string :=
  fun w => (inr (strftime_now (w_clock w)), tick w).

(** A call of [check_strength] from the program: it reads the clock. *)
Definition io_check_strength (password : pystr) (blacklist : option (gset pystr))
    : io (analysis R) :=
  now ← read_clock;
  mret (check_strength password blacklist now).

(** The lines of a file that [strip] does not empty. *)
Definition nonblank (lines : list pystr) : list pystr :=
  filter (fun line => truthy (str_strip line) = true) lines.

Definition load_blacklist (path : pystr) : io (gset pystr) :=
  let file_path := script_dir_join path in
  isfile ← os_path_isfile file_path;
  if negb isfile then
    _ ← py_print (lit "Blacklist file not found at: " ++ file_path);
    mret ∅
  else
    lines ← read_lines file_path;
    mret (list_to_set
            (map (fun line => str_lower (str_strip line)) (nonblank lines))).

Definition print_result (result : analysis R) : io unit :=
  let level := a_level result in
  let entropy := a_entropy result in
  let length := a_length result in
  _ ← py_print ([10%N] ++ lit " Password Strength Report ");
  _ ← py_print (lit "-------------------------------");
  _ ← py_print (lit "Password : " ++ a_password result);
  _ ← py_print (lit "Length   : " ++ int_str length);
  _ ← py_print (lit "Entropy  : " ++ float_str entropy ++ lit " bits");
  _ ← py_print (lit "Strength : " ++ lit level);
  _ ← py_print (lit "Score    : " ++ int_str (a_score result) ++ lit "/8");
  if truthy_list (a_remarks result) then
    _ ← py_print ([10%N] ++ lit "Suggestions:");
    io_for (a_remarks result) (fun r => py_print (lit " - " ++ lit r))
  else mret tt.

(** The lines a report consists of: seven lines, then, when there are
    remarks, a heading and one line for each. *)
Definition report_lines (result : analysis R) : list pystr :=
  [ [10%N] ++ lit " Password Strength Report ";
    lit "-------------------------------";
    lit "Password : " ++ a_password result;
    lit "Length   : " ++ int_str (a_length result);
    lit "Entropy  : " ++ float_str (a_entropy result) ++ lit " bits";
    lit "Strength : " ++ lit (a_level result);
    lit "Score    : " ++ int_str (a_score result) ++ lit "/8" ]
  ++ match a_remarks result with
     | [] => []
     | _ :: _ =>
         ([10%N] ++ lit "Suggestions:")
         :: map (fun r => lit " - " ++ lit r) (a_remarks result)
     end.

(** The report of the analysis of a password; no line of a report shows
    the timestamp, so any one will do. *)
Definition report_of (password : pystr) (blacklist : option (gset pystr))
    : list pystr :=
  report_lines (check_strength password blacklist "").

(** [main], from the parsed arguments on: [parser.parse_args()] and its
    own exits (status 2 on a usage error) are not part of the embedding,
    which starts with the namespace it returned. *)
Definition main (args : namespace) : io unit :=
  (* Load blacklist *)
  blacklist ← load_blacklist (args_blacklist args);
  (* Generate password *)
  if args_generate args then
    pwd ← io_gen (generate_password (args_gen_length args)
                    (negb (args_no_upper args)) (negb (args_no_digits args))
                    (negb (args_no_symbols args)));
    _ ← py_print ([10%N] ++ lit "Generated password: " ++ pwd);
    result ← io_check_strength pwd (Some blacklist);
    print_result result
  (* Analyze single password *)
  else if truthy_arg (args_password args) then
    result ← io_check_strength (default [] (args_password args)) (Some blacklist);
    print_result result
  (* Analyze multiple passwords from file *)
  else if truthy_arg (args_file args) then
    let file := default [] (args_file args) in
    isfile ← os_path_isfile file;
    if negb isfile then
      _ ← py_print (lit "Error: file not found.");
      sys_exit 1
    else
      lines ← read_lines file;
      let passwords := map str_strip (nonblank lines) in
      _ ← io_for passwords (fun pwd =>
             result ← io_check_strength pwd (Some blacklist);
             print_result result);
      py_print ([10%N] ++ lit "Analyzed "
                ++ int_str (Z.of_nat (length passwords)) ++ lit " passwords.")
  (* Default interactive mode *)
  else
    password ← py_input (lit "Enter a password to analyze: ");
    if negb (truthy password) then
      _ ← py_print (lit "No password entered.");
      sys_exit 0
    else
      result ← io_check_strength password (Some blacklist);
      print_result result.

End Program.

(** ** A reference runtime

    Floats are read as the real numbers they approximate: exact product,
    exact binary logarithm, rounding to the nearest multiple of [10^-d] with
    ties to even.  Case folding is the one of ASCII, under which
    [str.lower] and this function agree on every ASCII string. *)

(** Nearest integer, ties to the even one. *)
Definition round_half_even (x : R) : Z :=
  let f := Zfloor x in
  if Rlt_dec (x - IZR f) (1 / 2) then f
  else if Rlt_dec (1 / 2) (x - IZR f) then f + 1
  else if Z.even f then f else f + 1.

Definition real_round (x : R) (d : Z) : R :=
  (IZR (round_half_even (x * powerRZ 10 d)) / powerRZ 10 d)%R.

Definition real_log2 (n : Z) : R := (ln (IZR n) / ln 2)%R.

Definition real_ge (x y : R) : bool :=
  if Rle_dec y x then true else false.

Definition ascii_lower_char (c : char) : char :=
  if is_upper c then (c + 32)%N else c.

Definition ascii_lower (s : pystr) : pystr := map ascii_lower_char s.

Definition reference_runtime : Runtime := {|
  float := R;
  float_zero := 0%R;
  float_of_int := IZR;
  float_mul := Rmult;
  float_ge := real_ge;
  math_log2 := real_log2;
  float_round := real_round;
  str_lower := ascii_lower;
|}.

(** A reference host over the reference runtime: whitespace is that of
    ASCII, a float is written with the digits of its hundredths, the script
    lives in [/opt/analyzer], and the clock stands still. *)
Definition is_ascii_space (c : char) : bool :=
  ((9 <=? c) && (c <=? 13) || (28 <=? c) && (c <=? 32))%N.

Fixpoint lstrip (s : pystr) : pystr :=
  match s with
  | c :: s' => if is_ascii_space c then lstrip s' else s
  | [] => []
  end.

Definition ascii_strip (s : pystr) : pystr :=
  rev (lstrip (rev (lstrip s))).

Definition real_str (x : R) : pystr :=
  let n := round_half_even (x * 100) in
  let d := n mod 100 in
  int_str (n / 100) ++ lit "."
  ++ (if d mod 10 =? 0 then int_str (d / 10)
      else int_str (d / 10) ++ int_str (d mod 10)).

Definition reference_join (path : pystr) : pystr :=
  if starts_with (lit "/") path then path else lit "/opt/analyzer/" ++ path.

Definition reference_host : Host reference_runtime := {|
  str_strip := ascii_strip;
  float_str := (real_str : @float reference_runtime -> pystr);
  script_dir_join := reference_join;
  strftime_now := fun _ => "2025-01-01 00:00:00"%string;
|}.

(** A world for the examples: one blacklist file and one file of passwords,
    one line typed, nothing written. *)
Definition example_world : world := {|
  w_files := fun path =>
    if bool_decide (path = lit "/opt/analyzer/common_pass.txt")
    then Some [lit "Password1" ++ [10%N]; [10%N]; lit "  LetMeIn " ++ [10%N]]
    else if bool_decide (path = lit "batch.txt")
    then Some [lit "abc" ++ [10%N]; lit "   " ++ [10%N]; lit "qwerty123"]
    else None;
  w_stdin := [lit "Tr0ub4dor&3xKcdZ"];
  w_stdout := [];
  w_rng := {| tape := fun n => n; pos := 0 |};
  w_clock := 0;
|}.

(** Arguments for the examples: one namespace for each mode of [main]. *)
Definition example_args (password file : option pystr) (generate : bool)
    : namespace := {|
  args_password := password;
  args_file := file;
  args_generate := generate;
  args_gen_length := 16;
  args_no_upper := false;
  args_no_digits := false;
  args_no_symbols := false;
  args_blacklist := lit "common_pass.txt";
|}.

(** An entropy source for the examples: the tape that counts. *)
Definition counting_rng : rng := {| tape := fun n => n; pos := 0 |}.

(** ** Notions of the specification *)

(** The character [c] stands at the positions [i], [i+1] and [i+2] of [s]. *)
Definition triple_at (s : pystr) (i : nat) (c : char) : Prop :=
  s !! i = Some c /\ s !! S i = Some c /\ s !! S (S i) = Some c.

(** Some character is repeated three or more times consecutively. *)
Definition has_triple (s : pystr) : Prop :=
  exists i c, triple_at s i c.

(** "Any other character": in none of the three alphanumeric classes. *)
Definition is_other (c : char) : Prop :=
  is_lower c = false /\ is_upper c = false /\ is_digit c = false.

(** A character class is present in a password when one of its characters
    belongs to the class. *)
Definition class_present (cls : char -> Prop) (s : pystr) : Prop :=
  exists c, c ∈ s /\ cls c.

(** The pool size of the specification: the sum, over the classes present,
    of their fixed weights. *)
Definition pool_size_of (lower upper digit other : Prop) (pool : Z) : Prop :=
  exists wl wu wd wo : Z,
    pool = wl + wu + wd + wo /\
    (lower /\ wl = 26 \/ ~ lower /\ wl = 0) /\
    (upper /\ wu = 26 \/ ~ upper /\ wu = 0) /\
    (digit /\ wd = 10 \/ ~ digit /\ wd = 0) /\
    (other /\ wo = 32 \/ ~ other /\ wo = 0).

Definition pool_size (s : pystr) (pool : Z) : Prop :=
  pool_size_of
    (class_present (fun c => is_lower c = true) s)
    (class_present (fun c => is_upper c = true) s)
    (class_present (fun c => is_digit c = true) s)
    (class_present is_other s)
    pool.

(** One remark, or none. *)
Definition remark_if (b : bool) (r : string) : list string :=
  if b then [r] else [].

(** The points of the length step. *)
Definition length_points (n : Z) : Z :=
  if 16 <=? n then 3 else if 12 <=? n then 2 else if 8 <=? n then 1 else 0.

(** The four presence tests of a password, in the order lowercase,
    uppercase, digits, symbols. *)
Definition char_classes (s : pystr) : bool * bool * bool * bool :=
  (re_search_class is_lower s, re_search_class is_upper s,
   re_search_class is_digit s, re_search_class is_symbol s).

(** The number of character classes a password contains. *)
Definition class_count (s : pystr) : Z :=
  Z.b2z (re_search_class is_lower s) + Z.b2z (re_search_class is_upper s)
  + Z.b2z (re_search_class is_digit s) + Z.b2z (re_search_class is_symbol s).

(** ** Character classes and scans *)

Lemma re_search_class_present (cls : char -> bool) (s : pystr) :
  re_search_class cls s = true <-> class_present (fun c => cls c = true) s.
Proof.
  unfold re_search_class, class_present. rewrite existsb_exists.
  split; intros (c & Hin & Hc); exists c; split; auto;
    now apply list_elem_of_In.
Qed.

Lemma is_symbol_other (c : char) : is_symbol c = true <-> is_other c.
Proof.
  unfold is_symbol, is_other.
  destruct (is_lower c), (is_upper c), (is_digit c); simpl; intuition congruence.
Qed.

Lemma re_search_symbol_present (s : pystr) :
  re_search_class is_symbol s = true <-> class_present is_other s.
Proof.
  rewrite re_search_class_present. unfold class_present.
  split; intros (c & Hin & Hc); exists c; split; auto; now apply is_symbol_other.
Qed.

(** Every character is in one of the four classes. *)
Lemma char_in_some_class (c : char) :
  is_lower c || is_upper c || is_digit c || is_symbol c = true.
Proof.
  unfold is_symbol. destruct (is_lower c), (is_upper c), (is_digit c); reflexivity.
Qed.

(** What the scan for [(.)\1\1] finds: a position where three equal
    characters stand in a row, the character not being a line feed. *)
Lemma has_repeated_sequence_spec (s : pystr) :
  has_repeated_sequence s = true <->
  exists i c, triple_at s i c /\ c <> 10%N.
Proof.
  induction s as [|a s IH].
  - split; [discriminate|]. intros (i & c & (H & _) & _). destruct i; discriminate.
  - destruct s as [|b [|c t]].
    + split; [discriminate|]. intros (i & x & (_ & H & _) & _).
      destruct i; discriminate.
    + split; [discriminate|]. intros (i & x & (_ & _ & H) & _).
      destruct i as [|[|i]]; discriminate.
    + change (has_repeated_sequence (a :: b :: c :: t))
        with ((is_dot a && (b =? a)%N && (c =? a)%N)
              || has_repeated_sequence (b :: c :: t)).
      rewrite orb_true_iff, IH, !andb_true_iff, !N.eqb_eq.
      unfold is_dot. rewrite negb_true_iff, N.eqb_neq.
      split.
      * intros [[[Ha ->] ->] | (i & x & (H0 & H1 & H2) & Hx)].
        -- exists 0%nat, a. repeat split; auto.
        -- exists (S i), x. repeat split; auto.
      * intros (i & x & (H0 & H1 & H2) & Hx). destruct i as [|i].
        -- left. simpl in H0, H1, H2. inversion H0; inversion H1; inversion H2.
           subst. auto.
        -- right. exists i, x. repeat split; auto.
Qed.

(** C5: the repeated-sequence check does not return true for every password
    that contains a character three times in a row: on a password of three
    line feeds, which has such a run, it returns false. *)
Theorem has_repeated_sequence_misses_line_feeds :
  has_triple [10; 10; 10]%N /\ has_repeated_sequence [10; 10; 10]%N = false.
Proof.
  split; [|reflexivity].
  exists 0%nat, 10%N. repeat split.
Qed.

(** Away from line feeds the check is exact. *)
Lemma has_repeated_sequence_no_line_feed (s : pystr) :
  (10%N ∉ s) -> (has_repeated_sequence s = true <-> has_triple s).
Proof.
  intros Hnl. rewrite has_repeated_sequence_spec. unfold has_triple.
  split.
  - intros (i & c & H & _). eauto.
  - intros (i & c & H). exists i, c. split; [exact H|].
    intros ->. apply Hnl. destruct H as (H & _).
    eapply list_elem_of_lookup_2; eauto.
Qed.

(** ** The analyzer's score, remarks and level *)

Section AnalyzerProperties.
Context {R : Runtime}.

Lemma pool_size_unique (s : pystr) (p q : Z) :
  pool_size s p -> pool_size s q -> p = q.
Proof.
  intros (a1 & a2 & a3 & a4 & -> & H1 & H2 & H3 & H4)
         (b1 & b2 & b3 & b4 & -> & K1 & K2 & K3 & K4).
  assert (a1 = b1) by (destruct H1 as [[]|[]], K1 as [[]|[]]; tauto || lia).
  assert (a2 = b2) by (destruct H2 as [[]|[]], K2 as [[]|[]]; tauto || lia).
  assert (a3 = b3) by (destruct H3 as [[]|[]], K3 as [[]|[]]; tauto || lia).
  assert (a4 = b4) by (destruct H4 as [[]|[]], K4 as [[]|[]]; tauto || lia).
  lia.
Qed.

(** One presence test and its weight. *)
Lemma class_weight_cases (b : bool) (P : Prop) (w : Z) :
  (b = true <-> P) ->
  P /\ (if b then w else 0) = w \/ ~ P /\ (if b then w else 0) = 0.
Proof.
  intros H. destruct b.
  - left. split; [now apply H | reflexivity].
  - right. split; [|reflexivity]. intros HP. apply H in HP. discriminate.
Qed.

Lemma entropy_pool_sum (s : pystr) :
  entropy_pool s =
    (if re_search_class is_lower s then 26 else 0) +
    (if re_search_class is_upper s then 26 else 0) +
    (if re_search_class is_digit s then 10 else 0) +
    (if re_search_class is_symbol s then 32 else 0).
Proof.
  unfold entropy_pool.
  destruct (re_search_class is_lower s), (re_search_class is_upper s),
    (re_search_class is_digit s), (re_search_class is_symbol s); reflexivity.
Qed.

(** The pool the code accumulates is the pool size of the specification. *)
Lemma entropy_pool_size (s : pystr) : pool_size s (entropy_pool s).
Proof.
  rewrite entropy_pool_sum.
  exists (if re_search_class is_lower s then 26 else 0),
         (if re_search_class is_upper s then 26 else 0),
         (if re_search_class is_digit s then 10 else 0),
         (if re_search_class is_symbol s then 32 else 0).
  split; [reflexivity|].
  repeat split; apply class_weight_cases;
    first [apply re_search_symbol_present | apply re_search_class_present].
Qed.

(** The pool is empty exactly for the empty password. *)
Lemma entropy_pool_zero (s : pystr) : entropy_pool s = 0 <-> s = [].
Proof.
  split.
  - destruct s as [|c s]; [reflexivity|]. intros H. exfalso.
    rewrite entropy_pool_sum in H.
    pose proof (char_in_some_class c) as Hc.
    unfold re_search_class in H. simpl in H.
    destruct (is_lower c), (is_upper c), (is_digit c), (is_symbol c);
      simpl in *; try discriminate;
      repeat match type of H with
             | context [if ?b then _ else _] => destruct b
             end; lia.
  - intros ->. reflexivity.
Qed.

Lemma entropy_pool_pos (s : pystr) : s <> [] -> 1 <= entropy_pool s.
Proof.
  intros Hs.
  assert (entropy_pool s <> 0) as Hz by (rewrite entropy_pool_zero; exact Hs).
  assert (0 <= entropy_pool s); [|lia].
  rewrite entropy_pool_sum.
  destruct (re_search_class is_lower s), (re_search_class is_upper s),
    (re_search_class is_digit s), (re_search_class is_symbol s); lia.
Qed.

(** C4: the entropy of a password is [0.0] when its pool size or its length
    is zero, and otherwise its length times the binary logarithm of its pool
    size, rounded to two decimal places; the pool size adds 26 for lowercase
    letters, 26 for uppercase letters, 10 for digits and 32 for any other
    character, each when present. *)
Theorem calculate_entropy_formula (password : pystr) :
  exists pool : Z,
    pool_size password pool /\
    calculate_entropy password =
      if (pool =? 0) || (len password =? 0) then float_zero
      else float_round
             (float_mul (float_of_int (len password)) (math_log2 pool)) 2.
Proof.
  exists (entropy_pool password). split.
  - apply entropy_pool_size.
  - reflexivity.
Qed.

(** Case analysis on every test [scoring] makes. *)
Ltac scoring_cases password blacklist :=
  unfold scoring, length_points, remark_if;
  rewrite ?Z.geb_leb;
  destruct (Z.leb_spec 16 (len password)), (Z.leb_spec 12 (len password)),
    (Z.leb_spec 8 (len password)), (Z.ltb_spec (len password) 8);
  try lia;
  destruct (re_search_class is_lower password),
    (re_search_class is_upper password),
    (re_search_class is_digit password),
    (re_search_class is_symbol password),
    (has_repeated_sequence password),
    (is_keyboard_pattern password),
    (blacklist_hit password blacklist).

(** The score when the eight steps are done, before it is clamped. *)
Lemma scoring_score (password : pystr) (blacklist : option (gset pystr)) :
  score (scoring password blacklist) =
    length_points (len password)
    + Z.b2z (re_search_class is_lower password)
    + Z.b2z (re_search_class is_upper password)
    + Z.b2z (re_search_class is_digit password)
    + Z.b2z (re_search_class is_symbol password)
    - Z.b2z (has_repeated_sequence password)
    - Z.b2z (is_keyboard_pattern password)
    - 2 * Z.b2z (blacklist_hit password blacklist).
Proof. scoring_cases password blacklist; reflexivity. Qed.

Lemma scoring_remarks (password : pystr) (blacklist : option (gset pystr)) :
  remarks (scoring password blacklist) =
    remark_if (len password <? 8) "Too short (min 8 chars)"
    ++ remark_if (negb (re_search_class is_lower password)) "Add lowercase letters"
    ++ remark_if (negb (re_search_class is_upper password)) "Add uppercase letters"
    ++ remark_if (negb (re_search_class is_digit password)) "Add digits"
    ++ remark_if (negb (re_search_class is_symbol password)) "Add symbols (!, @, #, etc.)"
    ++ remark_if (has_repeated_sequence password) "Contains repeated characters"
    ++ remark_if (is_keyboard_pattern password) "Contains common pattern (qwerty/1234)"
    ++ remark_if (blacklist_hit password blacklist) "Found in common-password blacklist".
Proof. scoring_cases password blacklist; reflexivity. Qed.

Lemma scoring_blacklisted (password : pystr) (blacklist : option (gset pystr)) :
  blacklisted (scoring password blacklist) = blacklist_hit password blacklist.
Proof. scoring_cases password blacklist; reflexivity. Qed.

Lemma length_points_range (n : Z) : 0 <= length_points n <= 3.
Proof.
  unfold length_points.
  destruct (16 <=? n), (12 <=? n), (8 <=? n); lia.
Qed.

Lemma b2z_range (b : bool) : 0 <= Z.b2z b <= 1.
Proof. destruct b; simpl; lia. Qed.

Lemma scoring_score_upper (password : pystr) (blacklist : option (gset pystr)) :
  score (scoring password blacklist) <= 7.
Proof.
  rewrite scoring_score.
  pose proof (length_points_range (len password)).
  pose proof (b2z_range (re_search_class is_lower password)).
  pose proof (b2z_range (re_search_class is_upper password)).
  pose proof (b2z_range (re_search_class is_digit password)).
  pose proof (b2z_range (re_search_class is_symbol password)).
  pose proof (b2z_range (has_repeated_sequence password)).
  pose proof (b2z_range (is_keyboard_pattern password)).
  pose proof (b2z_range (blacklist_hit password blacklist)).
  lia.
Qed.

Lemma clamp_score_range (s : Z) : 0 <= clamp_score s <= 8.
Proof.
  unfold clamp_score.
  destruct (Z.ltb_spec s 0).
  - simpl. lia.
  - destruct (Z.gtb_spec s 8); lia.
Qed.

Lemma clamp_score_max (s : Z) : s <= 8 -> clamp_score s = Z.max 0 s.
Proof.
  intros Hs. unfold clamp_score.
  destruct (Z.ltb_spec s 0).
  - simpl. lia.
  - destruct (Z.gtb_spec s 8); lia.
Qed.

(** C3: the score of an analysis lies between 0 and 8, for every password,
    the empty one included, and every blacklist. *)
Theorem check_strength_score_range
    (password : pystr) (blacklist : option (gset pystr)) (now : string) :
  0 <= a_score (check_strength password blacklist now) <= 8.
Proof. apply clamp_score_range. Qed.

(** C10: the score accumulated by the eight steps is at most 7, so the
    clamp from above leaves it unchanged and the score of an analysis is
    never 8. *)
Theorem check_strength_score_below_8
    (password : pystr) (blacklist : option (gset pystr)) (now : string) :
  score (scoring password blacklist) <= 7 /\
  a_score (check_strength password blacklist now) =
    Z.max 0 (score (scoring password blacklist)) /\
  a_score (check_strength password blacklist now) <> 8.
Proof.
  pose proof (scoring_score_upper password blacklist) as H.
  assert (a_score (check_strength password blacklist now) =
          Z.max 0 (score (scoring password blacklist))) as E
    by (apply clamp_score_max; lia).
  repeat split; [exact H | exact E | lia].
Qed.

(** C7: the remarks of an analysis are, in this order and with nothing
    else: the length remark when the password has fewer than 8 characters;
    the remarks for lowercase letters, uppercase letters, digits and
    symbols, each when its class is absent; the repeated-characters remark;
    the common-pattern remark; the blacklist remark. *)
Theorem check_strength_remarks_order
    (password : pystr) (blacklist : option (gset pystr)) (now : string) :
  a_remarks (check_strength password blacklist now) =
    remark_if (len password <? 8) "Too short (min 8 chars)"
    ++ remark_if (negb (re_search_class is_lower password)) "Add lowercase letters"
    ++ remark_if (negb (re_search_class is_upper password)) "Add uppercase letters"
    ++ remark_if (negb (re_search_class is_digit password)) "Add digits"
    ++ remark_if (negb (re_search_class is_symbol password)) "Add symbols (!, @, #, etc.)"
    ++ remark_if (has_repeated_sequence password) "Contains repeated characters"
    ++ remark_if (is_keyboard_pattern password) "Contains common pattern (qwerty/1234)"
    ++ remark_if (blacklist_hit password blacklist) "Found in common-password blacklist".
Proof. apply scoring_remarks. Qed.

(** C2: the level of an analysis is decided in priority order: "Very Weak"
    for a blacklisted password; else "Strong" when the entropy is at least
    80 and the score at least 6; else "Medium" when the entropy is at least
    50 and the score at least 4; else "Weak".  So a "Strong" analysis has a
    score of at least 6 and an entropy of at least 80. *)
Theorem check_strength_level_priority
    (password : pystr) (blacklist : option (gset pystr)) (now : string) :
  let r := check_strength password blacklist now in
  a_level r =
    (if blacklist_hit password blacklist then "Very Weak"%string
     else if float_ge (a_entropy r) (float_of_int 80) && (6 <=? a_score r)
          then "Strong"%string
     else if float_ge (a_entropy r) (float_of_int 50) && (4 <=? a_score r)
          then "Medium"%string
     else "Weak"%string) /\
  (a_level r = "Strong"%string ->
   6 <= a_score r /\ float_ge (a_entropy r) (float_of_int 80) = true).
Proof.
  cbn zeta.
  assert (a_level (check_strength password blacklist now) =
          strength_level (blacklist_hit password blacklist)
            (a_entropy (check_strength password blacklist now))
            (a_score (check_strength password blacklist now))) as E.
  { cbn [check_strength a_level a_entropy a_score].
    now rewrite scoring_blacklisted. }
  rewrite E. unfold strength_level. rewrite !Z.geb_leb.
  split; [reflexivity|].
  destruct (blacklist_hit password blacklist); [discriminate|].
  destruct (float_ge (a_entropy (check_strength password blacklist now))
              (float_of_int 80)) eqn:E80;
    destruct (Z.leb_spec 6 (a_score (check_strength password blacklist now)));
    cbn [andb]; try (intros _; split; [assumption | reflexivity]);
    repeat match goal with
           | |- context [if ?b then _ else _] => destruct b
           end; discriminate.
Qed.

(** The blacklist flag is the membership test of the lowercased password. *)
Lemma scoring_blacklisted_member (password : pystr) (bl : gset pystr) :
  blacklisted (scoring password (Some bl)) = true <-> str_lower password ∈ bl.
Proof.
  rewrite scoring_blacklisted. unfold blacklist_hit.
  apply bool_decide_eq_true.
Qed.

(** A password whose lowercased form is in the blacklist. *)
Lemma blacklist_member_effect
    (password : pystr) (bl : gset pystr) (now : string) :
  str_lower password ∈ bl ->
  blacklisted (scoring password (Some bl)) = true /\
  a_remarks (check_strength password (Some bl) now) =
    a_remarks (check_strength password None now)
    ++ ["Found in common-password blacklist"%string] /\
  score (scoring password (Some bl)) = score (scoring password None) - 2 /\
  a_score (check_strength password (Some bl) now) =
    clamp_score (score (scoring password None) - 2) /\
  a_level (check_strength password (Some bl) now) = "Very Weak"%string.
Proof.
  intros Hin.
  assert (blacklist_hit password (Some bl) = true) as Hhit
    by (now apply bool_decide_eq_true).
  assert (score (scoring password (Some bl)) = score (scoring password None) - 2)
    as Hscore.
  { rewrite !scoring_score, Hhit. cbn [blacklist_hit Z.b2z]. lia. }
  split; [|split; [|split; [|split]]].
  - now rewrite scoring_blacklisted.
  - cbn [check_strength a_remarks]. rewrite !scoring_remarks, Hhit.
    cbn [blacklist_hit remark_if]. rewrite !app_nil_r, <- !app_assoc.
    reflexivity.
  - exact Hscore.
  - cbn [check_strength a_score]. now rewrite Hscore.
  - cbn [check_strength a_level]. rewrite scoring_blacklisted, Hhit.
    reflexivity.
Qed.

(** A password whose lowercased form is not in the blacklist. *)
Lemma blacklist_nonmember_effect
    (password : pystr) (bl : gset pystr) (now : string) :
  str_lower password ∉ bl ->
  blacklisted (scoring password (Some bl)) = false /\
  a_remarks (check_strength password (Some bl) now) =
    a_remarks (check_strength password None now) /\
  score (scoring password (Some bl)) = score (scoring password None) /\
  a_level (check_strength password (Some bl) now) <> "Very Weak"%string.
Proof.
  intros Hnot.
  assert (blacklist_hit password (Some bl) = false) as Hhit
    by (now apply bool_decide_eq_false).
  assert (scoring password (Some bl) = scoring password None) as E.
  { unfold scoring. rewrite Hhit. reflexivity. }
  split; [|split; [|split]].
  - now rewrite scoring_blacklisted.
  - cbn [check_strength a_remarks]. now rewrite E.
  - now rewrite E.
  - cbn [check_strength a_level]. rewrite scoring_blacklisted, Hhit.
    unfold strength_level.
    repeat match goal with
           | |- context [if ?b then _ else _] => destruct b
           end; discriminate.
Qed.

(** C6: the blacklist test is membership of the lowercased password in the
    blacklist the caller supplied, whatever that set is: the analysis sets
    its flag [blacklisted] exactly when the lowercased password is in the
    set.  When it is, the analysis appends the remark "Found in
    common-password blacklist" after the remarks it would have made without
    a blacklist, takes 2 off the score, and answers "Very Weak"; when it is
    not, the flag stays unset, no remark is added, nothing is taken off the
    score, and the level is not "Very Weak". *)
Theorem check_strength_blacklist_penalty
    (password : pystr) (bl : gset pystr) (now : string) :
  (blacklisted (scoring password (Some bl)) = true <-> str_lower password ∈ bl) /\
  (str_lower password ∈ bl ->
   blacklisted (scoring password (Some bl)) = true /\
   a_remarks (check_strength password (Some bl) now) =
     a_remarks (check_strength password None now)
     ++ ["Found in common-password blacklist"%string] /\
   score (scoring password (Some bl)) = score (scoring password None) - 2 /\
   a_score (check_strength password (Some bl) now) =
     clamp_score (score (scoring password None) - 2) /\
   a_level (check_strength password (Some bl) now) = "Very Weak"%string) /\
  (str_lower password ∉ bl ->
   blacklisted (scoring password (Some bl)) = false /\
   a_remarks (check_strength password (Some bl) now) =
     a_remarks (check_strength password None now) /\
   score (scoring password (Some bl)) = score (scoring password None) /\
   a_level (check_strength password (Some bl) now) <> "Very Weak"%string).
Proof.
  split; [apply scoring_blacklisted_member|]. split.
  - apply blacklist_member_effect.
  - apply blacklist_nonmember_effect.
Qed.

End AnalyzerProperties.

(** ** Entropy and length *)

Section EntropyOrder.
Context {R : Runtime} {L : RuntimeLaws R}.

(** The pool depends on the password through its four presence tests only. *)
Lemma entropy_pool_classes (p1 p2 : pystr) :
  char_classes p1 = char_classes p2 -> entropy_pool p1 = entropy_pool p2.
Proof.
  unfold char_classes. intros H. injection H as H1 H2 H3 H4.
  rewrite !entropy_pool_sum, H1, H2, H3, H4. reflexivity.
Qed.

(** C9: of two passwords with the same character classes, the longer one
    has an entropy that is not smaller. *)
Theorem calculate_entropy_monotone (p1 p2 : pystr) :
  (length p1 < length p2)%nat ->
  char_classes p1 = char_classes p2 ->
  float_ge (calculate_entropy p2) (calculate_entropy p1) = true.
Proof.
  intros Hlen Hcls.
  pose proof (entropy_pool_classes p1 p2 Hcls) as Hpool.
  assert (p2 <> []) as Hp2 by (intros ->; simpl in Hlen; lia).
  pose proof (entropy_pool_pos p2 Hp2) as Hpos2.
  assert (p1 <> []) as Hp1.
  { intros ->. change (entropy_pool []) with 0 in Hpool. lia. }
  assert (1 <= len p1 /\ len p1 <= len p2) as [Hl1 Hl12].
  { unfold len. destruct p1; [congruence|]. simpl length in *. lia. }
  unfold calculate_entropy. rewrite Hpool.
  replace (entropy_pool p2 =? 0) with false by (symmetry; apply Z.eqb_neq; lia).
  replace (len p1 =? 0) with false by (symmetry; apply Z.eqb_neq; lia).
  replace (len p2 =? 0) with false by (symmetry; apply Z.eqb_neq; lia).
  cbn [orb]. apply float_round_mono.
  apply float_mul_of_int_mono; [exact Hl1 | exact Hl12 |].
  apply math_log2_nonneg. exact Hpos2.
Qed.

End EntropyOrder.

(** ** The generator's output *)

Lemma gen_charset_concat (use_upper use_digits use_symbols : bool) :
  gen_charset use_upper use_digits use_symbols =
    ascii_lowercase
    ++ (if use_upper then ascii_uppercase else [])
    ++ (if use_digits then digits else [])
    ++ (if use_symbols then symbols else []).
Proof.
  unfold gen_charset.
  destruct use_upper, use_digits, use_symbols;
    rewrite ?app_nil_r, <- ?app_assoc; reflexivity.
Qed.

Lemma gen_charset_nonempty (use_upper use_digits use_symbols : bool) :
  gen_charset use_upper use_digits use_symbols <> [].
Proof. rewrite gen_charset_concat. discriminate. Qed.

(** A choice from a non-empty sequence returns one of its characters and
    reads one number of the tape. *)
Lemma secrets_choice_member (seq : pystr) (r : rng) :
  seq <> [] ->
  exists c, c ∈ seq /\
    secrets_choice seq r = (inr c, {| tape := tape r; pos := S (pos r) |}).
Proof.
  intros Hne. destruct seq as [|a seq]; [congruence|].
  unfold secrets_choice, mbind, gen_bind, randbelow. cbn beta iota.
  set (i := (tape r (pos r) mod length (a :: seq))%nat).
  assert (i < length (a :: seq))%nat as Hi
    by (apply Nat.mod_upper_bound; discriminate).
  match goal with
  | |- context [match ?o with Some _ => _ | None => _ end] =>
      destruct o as [c|] eqn:Hc
  end.
  - exists c. split; [|reflexivity].
    eapply list_elem_of_lookup_2; eauto.
  - apply lookup_ge_None_1 in Hc. lia.
Qed.

(** Running a choice [n] times gives [n] characters of the sequence and
    reads [n] numbers of the tape. *)
Lemma gen_repeat_choice (seq : pystr) (n : nat) (r : rng) :
  seq <> [] ->
  exists pwd,
    gen_repeat n (secrets_choice seq) r =
      (inr pwd, {| tape := tape r; pos := (n + pos r)%nat |}) /\
    length pwd = n /\ Forall (fun c => c ∈ seq) pwd.
Proof.
  intros Hne. revert r. induction n as [|n IH]; intros r.
  - exists []. repeat split; [destruct r; reflexivity | constructor].
  - destruct (secrets_choice_member seq r Hne) as (c & Hc & Ec).
    destruct (IH {| tape := tape r; pos := S (pos r) |})
      as (pwd & Epwd & Hlen & Hall).
    exists (c :: pwd). repeat split.
    + cbn [gen_repeat]. unfold mbind at 1, gen_bind at 1. rewrite Ec.
      unfold mbind at 1, gen_bind at 1. rewrite Epwd.
      cbn [tape pos]. unfold mret, gen_ret. do 2 f_equal. lia.
    + simpl. now rewrite Hlen.
    + now constructor.
Qed.

(** C8: for a positive length the generator returns a string of exactly
    that many characters, each of them in the character set, which is the
    lowercase letters followed by the uppercase letters, the digits and the
    symbols [!@#$%^&*()-_=+[]{};:,.<>/?], each part under its flag. *)
Theorem generate_password_length_charset
    (length : Z) (use_upper use_digits use_symbols : bool) (r : rng) :
  0 < length ->
  exists pwd : pystr,
    fst (generate_password length use_upper use_digits use_symbols r) = inr pwd /\
    len pwd = length /\
    Forall (fun c => c ∈ gen_charset use_upper use_digits use_symbols) pwd /\
    gen_charset use_upper use_digits use_symbols =
      ascii_lowercase
      ++ (if use_upper then ascii_uppercase else [])
      ++ (if use_digits then digits else [])
      ++ (if use_symbols then lit "!@#$%^&*()-_=+[]{};:,.<>/?" else []).
Proof.
  intros Hpos. unfold generate_password.
  destruct (gen_repeat_choice (gen_charset use_upper use_digits use_symbols)
              (range_size length) r
              (gen_charset_nonempty use_upper use_digits use_symbols))
    as (pwd & E & Hlen & Hall).
  exists pwd. repeat split; auto.
  - now rewrite E.
  - unfold len, range_size in *. lia.
  - apply gen_charset_concat.
Qed.

(** C1, as the code has it: for a length that is not positive the generator
    raises nothing; it returns the empty string and leaves the entropy
    source unread. *)
Theorem generate_password_nonpositive
    (length : Z) (use_upper use_digits use_symbols : bool) (r : rng) :
  length <= 0 ->
  generate_password length use_upper use_digits use_symbols r = (inr [], r).
Proof.
  intros Hle. unfold generate_password, range_size.
  replace (Z.to_nat length) with 0%nat by lia. reflexivity.
Qed.

(** C1 fails as stated: asked for a password of length 0, the generator
    does not raise; it returns a string. *)
Lemma generate_password_zero_returns :
  0 <= 0 /\
  ~ (exists e : exn,
       fst (generate_password 0 true true true counting_rng) = inl e) /\
  fst (generate_password 0 true true true counting_rng) = inr [].
Proof.
  split; [lia|]. split; [|reflexivity].
  intros [e He]. discriminate He.
Qed.

(** ** The reference runtime satisfies the order laws *)

Lemma real_ge_true (x y : R) : real_ge x y = true <-> (y <= x)%R.
Proof.
  unfold real_ge. destruct (Rle_dec y x); split; auto; discriminate.
Qed.

Lemma round_half_even_bounds (x : R) :
  Zfloor x <= round_half_even x <= Zfloor x + 1.
Proof.
  unfold round_half_even.
  destruct (Rlt_dec _ _); [lia|].
  destruct (Rlt_dec _ _); [lia|].
  destruct (Z.even _); lia.
Qed.

Lemma round_half_even_mono (x y : R) :
  (x <= y)%R -> round_half_even x <= round_half_even y.
Proof.
  intros Hxy.
  pose proof (Zfloor_le x y Hxy) as Hfl.
  destruct (Z.eq_dec (Zfloor x) (Zfloor y)) as [E|NE].
  - unfold round_half_even. rewrite E.
    repeat destruct (Rlt_dec _ _); try lia; try lra;
      destruct (Z.even (Zfloor y)); lia.
  - pose proof (round_half_even_bounds x). pose proof (round_half_even_bounds y).
    lia.
Qed.

Lemma round_half_even_IZR (k : Z) : round_half_even (IZR k) = k.
Proof.
  unfold round_half_even. rewrite ZfloorZ.
  destruct (Rlt_dec _ _) as [_|H]; [reflexivity|]. exfalso. apply H. lra.
Qed.

Lemma real_round_mono (x y : R) (d : Z) :
  (x <= y)%R -> (real_round x d <= real_round y d)%R.
Proof.
  intros Hxy. unfold real_round.
  assert (0 < powerRZ 10 d)%R as Hp by (apply powerRZ_lt; lra).
  apply Rmult_le_compat_r; [left; now apply Rinv_0_lt_compat|].
  apply IZR_le, round_half_even_mono.
  apply Rmult_le_compat_r; [lra | exact Hxy].
Qed.

(** Rounding to two digits does not take a number below an integer it
    exceeds. *)
Lemma real_round_ge_int (k : Z) (x : R) :
  (IZR k <= x)%R -> (IZR k <= real_round x 2)%R.
Proof.
  intros H.
  assert (real_round (IZR k) 2 = IZR k) as E.
  { unfold real_round. change (powerRZ 10 2) with (10 * (10 * 1))%R.
    replace (IZR k * (10 * (10 * 1)))%R with (IZR (k * 100))
      by (rewrite mult_IZR; lra).
    rewrite round_half_even_IZR, mult_IZR. lra. }
  rewrite <- E at 1. now apply real_round_mono.
Qed.

Lemma ln_2_pos : (0 < ln 2)%R.
Proof. rewrite <- ln_1. apply ln_increasing; lra. Qed.

Lemma real_log2_nonneg (n : Z) : 1 <= n -> (0 <= real_log2 n)%R.
Proof.
  intros Hn. unfold real_log2.
  apply Rmult_le_pos; [|left; apply Rinv_0_lt_compat, ln_2_pos].
  apply IZR_le in Hn. destruct Hn as [Hlt|<-].
  - left. rewrite <- ln_1. apply ln_increasing; lra.
  - rewrite ln_1. lra.
Qed.

(** The binary logarithm of a number that is at least [2^k] is at least [k]. *)
Lemma real_log2_ge (k : nat) (n : Z) :
  2 ^ Z.of_nat k <= n -> (INR k <= real_log2 n)%R.
Proof.
  intros Hn. unfold real_log2.
  assert (0 < 2 ^ k)%R as Hpow by (apply pow_lt; lra).
  assert (2 ^ k <= IZR n)%R as Hle.
  { apply IZR_le in Hn. rewrite <- pow_IZR in Hn. exact Hn. }
  assert (ln (2 ^ k) <= ln (IZR n))%R as Hln.
  { destruct Hle as [Hlt|<-]; [left; now apply ln_increasing | lra]. }
  rewrite ln_pow in Hln by lra.
  pose proof ln_2_pos as H2.
  apply Rmult_le_reg_r with (ln 2); [exact H2|].
  unfold Rdiv. rewrite Rmult_assoc, Rinv_l by lra. lra.
Qed.

#[export] Instance reference_runtime_laws : RuntimeLaws reference_runtime.
Proof.
  split.
  - intros m n c Hm Hmn Hc. cbn in *. apply real_ge_true in Hc.
    apply real_ge_true. apply Rmult_le_compat_r; [exact Hc|].
    now apply IZR_le.
  - intros n Hn. cbn. apply real_ge_true. now apply real_log2_nonneg.
  - intros x y d H. cbn in *. apply real_ge_true in H.
    apply real_ge_true. now apply real_round_mono.
Qed.

(** ** The properties at concrete inputs *)

Section Examples.
#[local] Existing Instance reference_runtime.

(** The scenarios of the specification. *)
Example scoring_abc :
  scoring (lit "abc") None =
    {| score := 1;
       remarks := ["Too short (min 8 chars)"; "Add uppercase letters";
                   "Add digits"; "Add symbols (!, @, #, etc.)"]%string;
       blacklisted := false |}.
Proof. reflexivity. Qed.

Example level_abc : a_level (check_strength (lit "abc") None "") = "Weak"%string.
Proof.
  cbn [check_strength a_level]. rewrite scoring_abc.
  unfold strength_level. cbn [blacklisted score clamp_score].
  rewrite !andb_false_r. reflexivity.
Qed.

Example scoring_qwerty123 :
  scoring (lit "qwerty123") (Some ∅) =
    {| score := 2;
       remarks := ["Add uppercase letters"; "Add symbols (!, @, #, etc.)";
                   "Contains common pattern (qwerty/1234)"]%string;
       blacklisted := false |}.
Proof. reflexivity. Qed.

Example level_blacklisted_password :
  a_level (check_strength (lit "P@ssw0rd123!") (Some {[ lit "p@ssw0rd123!" ]}) "")
  = "Very Weak"%string.
Proof. reflexivity. Qed.

(** A sixteen-character password with all four classes and no weak run. *)
Example scoring_strong_password :
  scoring (lit "Tr0ub4dor&3xKcdZ") None =
    {| score := 7; remarks := []; blacklisted := false |}.
Proof. reflexivity. Qed.

Example entropy_strong_password :
  real_ge (calculate_entropy (lit "Tr0ub4dor&3xKcdZ")) 80 = true.
Proof.
  apply real_ge_true.
  change (calculate_entropy (lit "Tr0ub4dor&3xKcdZ"))
    with (real_round (IZR 16 * real_log2 94) 2).
  apply real_round_ge_int.
  pose proof (real_log2_ge 5 94 ltac:(simpl; lia)) as H.
  simpl INR in H. lra.
Qed.

Example level_strong_password :
  a_level (check_strength (lit "Tr0ub4dor&3xKcdZ") None "") = "Strong"%string.
Proof.
  cbn [check_strength a_level]. rewrite scoring_strong_password.
  unfold strength_level. cbn [blacklisted score].
  change (float_ge (calculate_entropy (lit "Tr0ub4dor&3xKcdZ")) (float_of_int 80))
    with (real_ge (calculate_entropy (lit "Tr0ub4dor&3xKcdZ")) 80).
  rewrite entropy_strong_password. reflexivity.
Qed.

Lemma check_strength_level_priority_witness :
  let r := check_strength (lit "Tr0ub4dor&3xKcdZ") None "" in
  a_level r = "Strong"%string /\
  6 <= a_score r /\ float_ge (a_entropy r) (float_of_int 80) = true.
Proof.
  cbn zeta. split; [exact level_strong_password|].
  exact (proj2 (check_strength_level_priority (lit "Tr0ub4dor&3xKcdZ") None "")
           level_strong_password).
Defined.

Lemma check_strength_blacklist_penalty_witness :
  let bl : gset pystr := {[ lit "password1" ]} in
  let r := check_strength (lit "Password1") (Some bl) "" in
  str_lower (lit "Password1") ∈ bl /\
  blacklisted (scoring (lit "Password1") (Some bl)) = true /\
  a_remarks r =
    a_remarks (check_strength (lit "Password1") None "")
    ++ ["Found in common-password blacklist"%string] /\
  score (scoring (lit "Password1") (Some bl)) =
    score (scoring (lit "Password1") None) - 2 /\
  a_score r = clamp_score (score (scoring (lit "Password1") None) - 2) /\
  a_level r = "Very Weak"%string.
Proof.
  cbn zeta.
  assert (str_lower (lit "Password1") ∈ ({[ lit "password1" ]} : gset pystr))
    as H by (apply elem_of_singleton; reflexivity).
  split; [exact H|].
  exact (proj1 (proj2 (check_strength_blacklist_penalty
                         (lit "Password1") {[ lit "password1" ]} "")) H).
Defined.

Lemma calculate_entropy_monotone_witness :
  (length (lit "ab") < length (lit "abc"))%nat /\
  char_classes (lit "ab") = char_classes (lit "abc") /\
  float_ge (calculate_entropy (lit "abc")) (calculate_entropy (lit "ab")) = true.
Proof.
  assert (length (lit "ab") < length (lit "abc"))%nat as Hlen by (simpl; lia).
  assert (char_classes (lit "ab") = char_classes (lit "abc")) as Hcls
    by reflexivity.
  split; [exact Hlen|]. split; [exact Hcls|].
  exact (calculate_entropy_monotone (lit "ab") (lit "abc") Hlen Hcls).
Defined.

End Examples.

Lemma generate_password_length_charset_witness :
  0 < 20 /\
  exists pwd : pystr,
    fst (generate_password 20 true false true counting_rng) = inr pwd /\
    len pwd = 20 /\
    Forall (fun c => c ∈ gen_charset true false true) pwd.
Proof.
  assert (0 < 20) as Hpos by lia.
  split; [exact Hpos|].
  destruct (generate_password_length_charset 20 true false true counting_rng Hpos)
    as (pwd & E & Hlen & Hall & _).
  exists pwd. split; [exact E|]. split; [exact Hlen | exact Hall].
Defined.

Lemma generate_password_nonpositive_witness :
  -1 <= 0 /\
  generate_password (-1) true true true counting_rng = (inr [], counting_rng).
Proof.
  assert (-1 <= 0) as Hle by lia.
  split; [exact Hle|].
  exact (generate_password_nonpositive (-1) true true true counting_rng Hle).
Defined.

(** ** Substring scans *)

Lemma starts_with_prefix (p s : pystr) :
  starts_with p s = true <-> exists post, s = p ++ post.
Proof.
  revert s. induction p as [|x p IH]; intros s.
  - split; [intros _; exists s; reflexivity | destruct s; reflexivity].
  - destruct s as [|y s]; simpl.
    + split; [discriminate | intros [post H]; discriminate].
    + rewrite andb_true_iff, N.eqb_eq, IH. split.
      * intros [-> [post ->]]. exists post. reflexivity.
      * intros [post H]. injection H as -> ->. eauto.
Qed.

Lemma str_contains_infix (p s : pystr) :
  str_contains p s = true <-> exists pre post, s = pre ++ p ++ post.
Proof.
  induction s as [|y s IH].
  - simpl. rewrite orb_false_r, starts_with_prefix. split.
    + intros [post H]. exists [], post. exact H.
    + intros (pre & post & H). destruct pre; [|discriminate].
      exists post. exact H.
  - cbn [str_contains]. rewrite orb_true_iff, starts_with_prefix, IH. split.
    + intros [[post H] | (pre & post & H)].
      * exists [], post. exact H.
      * exists (y :: pre), post. simpl. now rewrite H.
    + intros (pre & post & H). destruct pre as [|z pre].
      * left. exists post. exact H.
      * right. injection H as -> H. eauto.
Qed.

(** The position form and the decomposition form of a run of three. *)
Lemma triple_at_decompose (s : pystr) (c : char) :
  (exists i, triple_at s i c) <->
  exists pre post, s = pre ++ c :: c :: c :: post.
Proof.
  split.
  - intros (i & H0 & H1 & H2).
    exists (take i s), (drop (S (S (S i))) s).
    rewrite <- (drop_S s c (S (S i)) H2), <- (drop_S s c (S i) H1),
      <- (drop_S s c i H0).
    symmetry. apply take_drop.
  - intros (pre & post & ->). exists (length pre). repeat split.
    + now apply list_lookup_middle.
    + change (pre ++ c :: c :: c :: post) with (pre ++ [c] ++ c :: c :: post).
      rewrite app_assoc. apply list_lookup_middle.
      rewrite length_app. simpl. lia.
    + change (pre ++ c :: c :: c :: post) with (pre ++ [c; c] ++ c :: post).
      rewrite app_assoc. apply list_lookup_middle.
      rewrite length_app. simpl. lia.
Qed.

(** X1: the repeated-sequence check answers true exactly for the passwords
    that contain, somewhere, three copies in a row of one character other
    than the line feed. *)
Theorem has_repeated_sequence_run (s : pystr) :
  has_repeated_sequence s = true <->
  exists (pre : pystr) (c : char) (post : pystr),
    s = pre ++ c :: c :: c :: post /\ c <> 10%N.
Proof.
  rewrite has_repeated_sequence_spec. split.
  - intros (i & c & H & Hc).
    destruct (proj1 (triple_at_decompose s c)) as (pre & post & E); eauto.
  - intros (pre & c & post & E & Hc).
    destruct (proj2 (triple_at_decompose s c)) as [i H]; eauto.
Qed.

Section PatternProperties.
Context {R : Runtime}.

(** X2: the common-pattern check answers true exactly when the lowercased
    password contains one of the six patterns as a contiguous substring. *)
Theorem is_keyboard_pattern_substring (pwd : pystr) :
  is_keyboard_pattern pwd = true <->
  exists (p pre post : pystr),
    p ∈ map lit ["qwerty"; "asdf"; "1234"; "password"; "abcd"; "1111"]%string /\
    str_lower pwd = pre ++ p ++ post.
Proof.
  unfold is_keyboard_pattern. rewrite existsb_exists. split.
  - intros (p & Hin & H). apply str_contains_infix in H as (pre & post & E).
    exists p, pre, post. split; [now apply list_elem_of_In | exact E].
  - intros (p & pre & post & Hin & E). exists p. split.
    + now apply list_elem_of_In.
    + apply str_contains_infix. eauto.
Qed.

(** X3: the pool is 0 for the empty password only; for any other password
    it lies between 10 and 94, so the logarithm is never taken of a number
    that is not positive. *)
Theorem entropy_pool_range (s : pystr) :
  (s = [] /\ entropy_pool s = 0) \/
  (s <> [] /\ 10 <= entropy_pool s <= 94).
Proof.
  destruct s as [|c s]; [left; split; reflexivity|].
  right. split; [discriminate|].
  pose proof (entropy_pool_pos (c :: s) ltac:(discriminate)) as Hpos.
  rewrite entropy_pool_sum in *.
  destruct (re_search_class is_lower (c :: s)),
    (re_search_class is_upper (c :: s)),
    (re_search_class is_digit (c :: s)),
    (re_search_class is_symbol (c :: s)); lia.
Qed.

(** X4: the entropy of a password depends on its length and on which
    character classes it contains, and on nothing else: neither on which
    characters stand for a class nor on how often they repeat. *)
Theorem calculate_entropy_length_classes (p1 p2 : pystr) :
  length p1 = length p2 ->
  char_classes p1 = char_classes p2 ->
  calculate_entropy p1 = calculate_entropy p2.
Proof.
  intros Hlen Hcls. unfold calculate_entropy, len.
  unfold char_classes in Hcls. injection Hcls as H1 H2 H3 H4.
  rewrite !entropy_pool_sum, H1, H2, H3, H4, Hlen. reflexivity.
Qed.

End PatternProperties.

(** ** Scores, remarks and levels: consequences *)

Section ScoreProperties.
Context {R : Runtime}.

Lemma class_count_range (s : pystr) : 0 <= class_count s <= 4.
Proof.
  unfold class_count.
  destruct (re_search_class is_lower s), (re_search_class is_upper s),
    (re_search_class is_digit s), (re_search_class is_symbol s); simpl; lia.
Qed.

Lemma class_count_nonempty (s : pystr) : s <> [] -> 1 <= class_count s.
Proof.
  intros Hs. pose proof (entropy_pool_pos s Hs) as H.
  rewrite entropy_pool_sum in H. unfold class_count.
  destruct (re_search_class is_lower s), (re_search_class is_upper s),
    (re_search_class is_digit s), (re_search_class is_symbol s); simpl in *; lia.
Qed.

Lemma scoring_score_classes (password : pystr) (blacklist : option (gset pystr)) :
  score (scoring password blacklist) =
    length_points (len password) + class_count password
    - Z.b2z (has_repeated_sequence password)
    - Z.b2z (is_keyboard_pattern password)
    - 2 * Z.b2z (blacklist_hit password blacklist).
Proof. rewrite scoring_score. unfold class_count. lia. Qed.

Lemma length_points_ge (n : Z) :
  (2 <= length_points n -> 12 <= n) /\ (1 <= length_points n -> 8 <= n) /\
  (3 <= length_points n -> 16 <= n).
Proof.
  unfold length_points.
  destruct (Z.leb_spec 16 n), (Z.leb_spec 12 n), (Z.leb_spec 8 n); lia.
Qed.

Lemma clamp_score_ge (s k : Z) : 1 <= k -> k <= clamp_score s -> k <= s.
Proof.
  unfold clamp_score. intros Hk.
  destruct (Z.ltb_spec s 0); simpl; [lia|].
  destruct (Z.gtb_spec s 8); lia.
Qed.

(** X5: before it is clamped the score is never below -3: a penalty for a
    run or a pattern falls on a password that earned a point for some
    class, or on the empty password, which has no run. *)
Theorem scoring_score_lower (password : pystr) (blacklist : option (gset pystr)) :
  -3 <= score (scoring password blacklist).
Proof.
  rewrite scoring_score_classes.
  pose proof (length_points_range (len password)).
  pose proof (b2z_range (is_keyboard_pattern password)).
  pose proof (b2z_range (blacklist_hit password blacklist)).
  destruct password as [|c s].
  - change (has_repeated_sequence []) with false.
    change (class_count []) with 0. simpl Z.b2z. lia.
  - pose proof (class_count_nonempty (c :: s) ltac:(discriminate)).
    pose proof (b2z_range (has_repeated_sequence (c :: s))).
    lia.
Qed.

(** What the level "Strong" takes. *)
Lemma strong_level_needs
    (password : pystr) (blacklist : option (gset pystr)) (now : string) :
  a_level (check_strength password blacklist now) = "Strong"%string ->
  12 <= a_length (check_strength password blacklist now) /\
  3 <= class_count password /\
  blacklist_hit password blacklist = false.
Proof.
  cbn [check_strength a_level a_length]. rewrite scoring_blacklisted.
  unfold strength_level.
  destruct (blacklist_hit password blacklist) eqn:Hhit; [discriminate|].
  rewrite Z.geb_leb.
  destruct (Z.leb_spec 6 (clamp_score (score (scoring password blacklist))))
    as [H6|H6].
  - intros _. apply clamp_score_ge in H6; [|lia].
    rewrite scoring_score_classes, Hhit in H6. simpl Z.b2z in H6.
    pose proof (length_points_range (len password)).
    pose proof (class_count_range password).
    pose proof (b2z_range (has_repeated_sequence password)).
    pose proof (b2z_range (is_keyboard_pattern password)).
    destruct (length_points_ge (len password)) as (H12 & _ & _).
    repeat split; [apply H12|]; lia.
  - rewrite andb_false_r.
    destruct (_ && _); discriminate.
Qed.

(** X6: an analysis that says "Strong" is of a password of at least 12
    characters, with at least three of the four character classes, that the
    blacklist test did not hit. *)
Theorem check_strength_strong_needs
    (password : pystr) (blacklist : option (gset pystr)) (now : string) :
  a_level (check_strength password blacklist now) = "Strong"%string ->
  12 <= a_length (check_strength password blacklist now) /\
  3 <= class_count password /\
  blacklist_hit password blacklist = false.
Proof. apply strong_level_needs. Qed.

(** The level "Very Weak" is the one of a hit of the blacklist test. *)
Lemma very_weak_level_hit
    (password : pystr) (blacklist : option (gset pystr)) (now : string) :
  a_level (check_strength password blacklist now) = "Very Weak"%string <->
  blacklist_hit password blacklist = true.
Proof.
  cbn [check_strength a_level]. rewrite scoring_blacklisted.
  unfold strength_level.
  destruct (blacklist_hit password blacklist); [tauto|].
  split; [|discriminate].
  repeat match goal with
         | |- context [if ?b then _ else _] => destruct b
         end; discriminate.
Qed.

(** X7: an analysis says "Very Weak" exactly when a blacklist was supplied
    and the lowercased password is in it; without a blacklist no password
    is "Very Weak". *)
Theorem check_strength_very_weak_iff
    (password : pystr) (blacklist : option (gset pystr)) (now : string) :
  a_level (check_strength password blacklist now) = "Very Weak"%string <->
  exists bl : gset pystr, blacklist = Some bl /\ str_lower password ∈ bl.
Proof.
  rewrite very_weak_level_hit. unfold blacklist_hit.
  destruct blacklist as [bl|].
  - rewrite bool_decide_eq_true. split.
    + intros Hin. exists bl. split; [reflexivity | exact Hin].
    + intros (bl' & E & Hin). injection E as <-. exact Hin.
  - split; [discriminate | intros (bl' & E & _); discriminate].
Qed.

(** X8: a blacklist that does not contain the lowercased password changes
    nothing: the analysis is the one made without a blacklist. *)
Theorem check_strength_unlisted
    (password : pystr) (bl : gset pystr) (now : string) :
  str_lower password ∉ bl ->
  check_strength password (Some bl) now = check_strength password None now.
Proof.
  intros Hnot.
  assert (blacklist_hit password (Some bl) = false) as Hhit
    by (now apply bool_decide_eq_false).
  assert (scoring password (Some bl) = scoring password None) as E.
  { unfold scoring. rewrite Hhit. reflexivity. }
  unfold check_strength. rewrite E. reflexivity.
Qed.

(** The analysis makes no remark exactly when none of its eight tests
    asks for one. *)
Lemma no_remarks_tests
    (password : pystr) (blacklist : option (gset pystr)) (now : string) :
  a_remarks (check_strength password blacklist now) = [] <->
  8 <= len password /\ class_count password = 4 /\
  has_repeated_sequence password = false /\
  is_keyboard_pattern password = false /\
  blacklist_hit password blacklist = false.
Proof.
  cbn [check_strength a_remarks]. rewrite scoring_remarks.
  unfold class_count, remark_if.
  destruct (Z.ltb_spec (len password) 8);
    destruct (re_search_class is_lower password),
      (re_search_class is_upper password),
      (re_search_class is_digit password),
      (re_search_class is_symbol password),
      (has_repeated_sequence password),
      (is_keyboard_pattern password),
      (blacklist_hit password blacklist);
    simpl; split; try discriminate; try (intros _; repeat split; lia);
    try reflexivity; intros (? & ? & ? & ? & ?); try discriminate; lia.
Qed.

(** The repeated-sequence check answers false exactly when no character
    other than the line feed stands three times in a row. *)
Lemma has_repeated_sequence_false (s : pystr) :
  has_repeated_sequence s = false <->
  ~ exists (pre : pystr) (c : char) (post : pystr),
      s = pre ++ c :: c :: c :: post /\ c <> 10%N.
Proof.
  rewrite <- not_true_iff_false, has_repeated_sequence_spec. split.
  - intros Hno (pre & c & post & E & Hc). apply Hno.
    destruct (proj2 (triple_at_decompose s c)) as [i Hi]; eauto.
  - intros Hno (i & c & Hi & Hc). apply Hno.
    destruct (proj1 (triple_at_decompose s c)) as (pre & post & E); eauto.
Qed.

(** X9: an analysis has no remark exactly when the password has at least 8
    characters and all four character classes, holds nowhere three copies
    in a row of one character other than the line feed (a run of three line
    feeds draws no remark), has no common pattern in its lowercased form,
    and is not hit by the blacklist test; its score is then at least 5. *)
Theorem check_strength_no_remarks
    (password : pystr) (blacklist : option (gset pystr)) (now : string) :
  (a_remarks (check_strength password blacklist now) = [] <->
   8 <= len password /\ class_count password = 4 /\
   (~ exists (pre : pystr) (c : char) (post : pystr),
        password = pre ++ c :: c :: c :: post /\ c <> 10%N) /\
   (~ exists (p pre post : pystr),
        p ∈ map lit ["qwerty"; "asdf"; "1234"; "password"; "abcd"; "1111"]%string /\
        str_lower password = pre ++ p ++ post) /\
   blacklist_hit password blacklist = false) /\
  (a_remarks (check_strength password blacklist now) = [] ->
   5 <= a_score (check_strength password blacklist now)).
Proof.
  assert (is_keyboard_pattern password = false <->
          ~ exists (p pre post : pystr),
              p ∈ map lit ["qwerty"; "asdf"; "1234"; "password"; "abcd"; "1111"]%string /\
              str_lower password = pre ++ p ++ post) as Hkbd.
  { rewrite <- not_true_iff_false. unfold is_keyboard_pattern.
    rewrite existsb_exists. split.
    - intros Hno (p & pre & post & Hin & E). apply Hno. exists p. split.
      + now apply list_elem_of_In.
      + apply str_contains_infix. eauto.
    - intros Hno (p & Hin & Hc). apply Hno.
      apply str_contains_infix in Hc as (pre & post & E).
      exists p, pre, post. split; [now apply list_elem_of_In | exact E]. }
  split.
  - rewrite no_remarks_tests, has_repeated_sequence_false, Hkbd. reflexivity.
  - intros Hnone. apply no_remarks_tests in Hnone as (H8 & H4 & Hr & Hk & Hb).
    cbn [check_strength a_score].
    rewrite scoring_score_classes, H4, Hr, Hk, Hb. simpl Z.b2z.
    unfold length_points, clamp_score.
    destruct (Z.leb_spec 16 (len password)), (Z.leb_spec 12 (len password)),
      (Z.leb_spec 8 (len password)); simpl; lia.
Qed.

(** X10: the highest score, 7, is reached exactly by the passwords of at
    least 16 characters with all four character classes and no penalty. *)
Theorem check_strength_top_score
    (password : pystr) (blacklist : option (gset pystr)) (now : string) :
  a_score (check_strength password blacklist now) = 7 <->
  16 <= len password /\ class_count password = 4 /\
  has_repeated_sequence password = false /\
  is_keyboard_pattern password = false /\
  blacklist_hit password blacklist = false.
Proof.
  cbn [check_strength a_score].
  pose proof (scoring_score_upper password blacklist) as Hup.
  rewrite clamp_score_max by lia.
  rewrite scoring_score_classes.
  pose proof (length_points_range (len password)).
  pose proof (class_count_range password).
  destruct (length_points_ge (len password)) as (_ & _ & H16).
  assert (16 <= len password -> length_points (len password) = 3) as H3.
  { unfold length_points. destruct (Z.leb_spec 16 (len password)); lia. }
  destruct (has_repeated_sequence password), (is_keyboard_pattern password),
    (blacklist_hit password blacklist); simpl Z.b2z; split;
    try (intros (? & ? & ? & ? & ?); discriminate);
    try (intros (? & ? & _); specialize (H3 ltac:(assumption)); lia);
    try (intros ?; exfalso; lia).
  intros ?. repeat split; try reflexivity; [apply H16|]; lia.
Qed.

End ScoreProperties.

(** ** The generator: consequences *)

(** One run of the generator, whatever its arguments. *)
Lemma generate_password_run
    (length : Z) (use_upper use_digits use_symbols : bool) (r : rng) :
  exists pwd : pystr,
    generate_password length use_upper use_digits use_symbols r =
      (inr pwd, {| tape := tape r; pos := (Z.to_nat length + pos r)%nat |}) /\
    len pwd = Z.max 0 length /\
    Forall (fun c => c ∈ gen_charset use_upper use_digits use_symbols) pwd.
Proof.
  destruct (gen_repeat_choice (gen_charset use_upper use_digits use_symbols)
              (range_size length) r
              (gen_charset_nonempty use_upper use_digits use_symbols))
    as (pwd & E & Hlen & Hall).
  exists pwd. repeat split; [exact E | | exact Hall].
  unfold len, range_size in *. lia.
Qed.

(** A class found in a string of characters of a set is found in the set. *)
Lemma re_search_class_within (cls : char -> bool) (cs s : pystr) :
  Forall (fun c => c ∈ cs) s ->
  re_search_class cls s = true -> re_search_class cls cs = true.
Proof.
  unfold re_search_class. rewrite !existsb_exists.
  intros Hall (c & Hin & Hc). exists c. split; [|exact Hc].
  apply list_elem_of_In. rewrite Forall_forall in Hall.
  apply Hall. now apply list_elem_of_In.
Qed.

(** What a string of characters of the generator's set can contain. *)
Lemma gen_charset_classes (use_upper use_digits use_symbols : bool) (s : pystr) :
  Forall (fun c => c ∈ gen_charset use_upper use_digits use_symbols) s ->
  implb (re_search_class is_upper s) use_upper = true /\
  implb (re_search_class is_digit s) use_digits = true /\
  implb (re_search_class is_symbol s) use_symbols = true /\
  (10%N ∉ s).
Proof.
  intros Hall. repeat split.
  - destruct (re_search_class is_upper s) eqn:E; [|reflexivity].
    apply (re_search_class_within _ _ _ Hall) in E.
    destruct use_upper; [reflexivity|].
    destruct use_digits, use_symbols; vm_compute in E; discriminate.
  - destruct (re_search_class is_digit s) eqn:E; [|reflexivity].
    apply (re_search_class_within _ _ _ Hall) in E.
    destruct use_digits; [reflexivity|].
    destruct use_upper, use_symbols; vm_compute in E; discriminate.
  - destruct (re_search_class is_symbol s) eqn:E; [|reflexivity].
    apply (re_search_class_within _ _ _ Hall) in E.
    destruct use_symbols; [reflexivity|].
    destruct use_upper, use_digits; vm_compute in E; discriminate.
  - intros Hin.
    assert (re_search_class (fun c => (c =? 10)%N) s = true) as E.
    { apply existsb_exists. exists 10%N. split; [|reflexivity].
      now apply list_elem_of_In. }
    apply (re_search_class_within _ _ _ Hall) in E.
    destruct use_upper, use_digits, use_symbols; vm_compute in E; discriminate.
Qed.

(** X11: the generator never raises, whatever the length and the flags: it
    returns a string of [max(0, length)] characters and has read that many
    numbers from the entropy source. *)
Theorem generate_password_never_raises
    (length : Z) (use_upper use_digits use_symbols : bool) (r : rng) :
  exists pwd : pystr,
    generate_password length use_upper use_digits use_symbols r =
      (inr pwd, {| tape := tape r; pos := (Z.to_nat length + pos r)%nat |}) /\
    len pwd = Z.max 0 length.
Proof.
  destruct (generate_password_run length use_upper use_digits use_symbols r)
    as (pwd & E & Hlen & _).
  exists pwd. split; [exact E | exact Hlen].
Qed.

(** X12: a class that is switched off does not occur in the output: an
    uppercase letter, a digit or a symbol in the generated password means
    that its flag was set. *)
Theorem generate_password_excluded_classes
    (length : Z) (use_upper use_digits use_symbols : bool) (r : rng) :
  exists pwd : pystr,
    fst (generate_password length use_upper use_digits use_symbols r) = inr pwd /\
    implb (re_search_class is_upper pwd) use_upper = true /\
    implb (re_search_class is_digit pwd) use_digits = true /\
    implb (re_search_class is_symbol pwd) use_symbols = true.
Proof.
  destruct (generate_password_run length use_upper use_digits use_symbols r)
    as (pwd & E & _ & Hall).
  destruct (gen_charset_classes _ _ _ _ Hall) as (Hu & Hd & Hs & _).
  exists pwd. rewrite E. repeat split; assumption.
Qed.

(** X13: a generated password holds no line feed, so on it the
    repeated-sequence check is exact: it answers true exactly when some
    character stands three times in a row. *)
Theorem generate_password_repeated_exact
    (length : Z) (use_upper use_digits use_symbols : bool) (r : rng) :
  exists pwd : pystr,
    fst (generate_password length use_upper use_digits use_symbols r) = inr pwd /\
    (10%N ∉ pwd) /\
    (has_repeated_sequence pwd = true <-> has_triple pwd).
Proof.
  destruct (generate_password_run length use_upper use_digits use_symbols r)
    as (pwd & E & _ & Hall).
  destruct (gen_charset_classes _ _ _ _ Hall) as (_ & _ & _ & Hnl).
  exists pwd. rewrite E. repeat split; try assumption;
    now apply has_repeated_sequence_no_line_feed.
Qed.

Section GeneratedAnalysis.
Context {R : Runtime}.

(** X14: a password generated with fewer than 12 characters, or with at
    most one of the three optional classes switched on, is never analyzed
    as "Strong". *)
Theorem generated_password_not_strong
    (length : Z) (use_upper use_digits use_symbols : bool) (r : rng)
    (pwd : pystr) (blacklist : option (gset pystr)) (now : string) :
  length < 12 \/ Z.b2z use_upper + Z.b2z use_digits + Z.b2z use_symbols <= 1 ->
  fst (generate_password length use_upper use_digits use_symbols r) = inr pwd ->
  a_level (check_strength pwd blacklist now) <> "Strong"%string.
Proof.
  intros Hweak Hgen Hstrong.
  destruct (generate_password_run length use_upper use_digits use_symbols r)
    as (pwd' & E & Hlen & Hall).
  rewrite E in Hgen. cbn [fst] in Hgen. injection Hgen as ->.
  destruct (gen_charset_classes _ _ _ _ Hall) as (Hu & Hd & Hs & _).
  apply strong_level_needs in Hstrong as (H12 & H3 & _).
  cbn [check_strength a_length] in H12. unfold class_count in H3.
  pose proof (b2z_range (re_search_class is_lower pwd)).
  destruct Hweak as [Hshort | Hfew]; [lia|].
  destruct (re_search_class is_upper pwd), (re_search_class is_digit pwd),
    (re_search_class is_symbol pwd), use_upper, use_digits, use_symbols;
    simpl in *; try discriminate; lia.
Qed.

End GeneratedAnalysis.

(** ** The command-line program: loader, printer and [main] *)

Lemma add_out_nil (w : world) : add_out w [] = w.
Proof. destruct w. unfold add_out. cbn. now rewrite app_nil_r. Qed.

Lemma add_out_app (w : world) (a b : list output) :
  add_out (add_out w a) b = add_out w (a ++ b).
Proof. unfold add_out. cbn. now rewrite app_assoc. Qed.

Lemma tick_add_out (w : world) (a : list output) :
  tick (add_out w a) = add_out (tick w) a.
Proof. reflexivity. Qed.

Lemma io_bind_ok {A B} (m : io A) (k : A -> io B) (w w' : world) (x : A) :
  m w = (inr x, w') -> (m ≫= k) w = k x w'.
Proof. intros E. unfold mbind, io_bind. now rewrite E. Qed.

Lemma io_bind_fail {A B} (m : io A) (k : A -> io B) (w w' : world) (e : signal) :
  m w = (inl e, w') -> (m ≫= k) w = (inl e, w').
Proof. intros E. unfold mbind, io_bind. now rewrite E. Qed.

Lemma io_for_print {A} (f : A -> pystr) (xs : list A) (w : world) :
  io_for xs (fun x => py_print (f x)) w =
    (inr tt, add_out w (map (fun x => Printed (f x)) xs)).
Proof.
  revert w. induction xs as [|x xs IH]; intros w.
  - cbn. now rewrite add_out_nil.
  - cbn [io_for map]. erewrite io_bind_ok by reflexivity.
    rewrite IH, add_out_app. reflexivity.
Qed.

Section ProgramProperties.
Context {R : Runtime} {H : Host R}.

Lemma report_lines_now (password : pystr) (blacklist : option (gset pystr))
    (now : string) :
  report_lines (check_strength password blacklist now) = report_of password blacklist.
Proof. reflexivity. Qed.

Lemma print_result_run (result : analysis R) (w : world) :
  print_result result w = (inr tt, add_out w (map Printed (report_lines result))).
Proof.
  unfold print_result, report_lines.
  repeat (erewrite io_bind_ok by reflexivity).
  destruct (a_remarks result) as [|r rs] eqn:E; cbn [truthy_list].
  - unfold mret, io_ret. rewrite !add_out_app. reflexivity.
  - erewrite io_bind_ok by reflexivity.
    rewrite io_for_print, !add_out_app. cbn [map app].
    rewrite map_map. reflexivity.
Qed.

(** One analysis and its report: the clock is read once and the report
    written. *)
Lemma analyze_and_report (password : pystr) (blacklist : option (gset pystr))
    (w : world) :
  (result ← io_check_strength password blacklist; print_result result) w =
    (inr tt, add_out (tick w) (map Printed (report_of password blacklist))).
Proof.
  unfold io_check_strength, read_clock.
  repeat (erewrite io_bind_ok by reflexivity).
  rewrite print_result_run, report_lines_now. reflexivity.
Qed.

Lemma load_blacklist_absent (path : pystr) (w : world) :
  w_files w (script_dir_join path) = None ->
  load_blacklist path w =
    (inr ∅, add_out w [Printed (lit "Blacklist file not found at: "
                                  ++ script_dir_join path)]).
Proof.
  intros E. unfold load_blacklist, os_path_isfile.
  erewrite io_bind_ok by reflexivity. rewrite E.
  rewrite bool_decide_eq_false_2 by (intros [x Hx]; discriminate).
  cbn [negb]. erewrite io_bind_ok by reflexivity. reflexivity.
Qed.

Lemma load_blacklist_present (path : pystr) (w : world) (lines : list pystr) :
  w_files w (script_dir_join path) = Some lines ->
  load_blacklist path w =
    (inr (list_to_set
            (map (fun line => str_lower (str_strip line)) (nonblank lines))), w).
Proof.
  intros E. unfold load_blacklist, os_path_isfile.
  erewrite io_bind_ok by reflexivity. rewrite E.
  rewrite bool_decide_eq_true_2 by eauto.
  cbn [negb]. unfold read_lines.
  erewrite io_bind_ok by (rewrite E; reflexivity). reflexivity.
Qed.

Lemma truthy_nonempty (s : pystr) : truthy s = true <-> s <> [].
Proof. destruct s; simpl; split; congruence. Qed.

Lemma nonblank_member (lines : list pystr) (line : pystr) :
  line ∈ nonblank lines <-> line ∈ lines /\ str_strip line <> [].
Proof.
  unfold nonblank. rewrite list_elem_of_filter, truthy_nonempty. tauto.
Qed.

(** X15: when the blacklist file exists, loading it writes nothing and
    returns the set whose elements are the lines of the file, stripped and
    lowercased, the lines that [strip] empties being left out. *)
Theorem load_blacklist_members (path : pystr) (w : world) (lines : list pystr) :
  w_files w (script_dir_join path) = Some lines ->
  exists bl : gset pystr,
    load_blacklist path w = (inr bl, w) /\
    forall x : pystr,
      x ∈ bl <->
      exists line, line ∈ lines /\ str_strip line <> [] /\
                   x = str_lower (str_strip line).
Proof.
  intros E. eexists. split; [exact (load_blacklist_present path w lines E)|].
  intros x. rewrite elem_of_list_to_set, list_elem_of_fmap. split.
  - intros (line & -> & Hin). apply nonblank_member in Hin as [Hin Hne].
    exists line. auto.
  - intros (line & Hin & Hne & ->). exists line. split; [reflexivity|].
    now apply nonblank_member.
Qed.

(** X16: when the blacklist file does not exist, loading raises nothing: it
    prints one line that names the path and returns the empty set, against
    which no password is "Very Weak". *)
Theorem load_blacklist_missing (path : pystr) (w : world) :
  w_files w (script_dir_join path) = None ->
  exists bl : gset pystr,
    load_blacklist path w =
      (inr bl, add_out w [Printed (lit "Blacklist file not found at: "
                                     ++ script_dir_join path)]) /\
    bl = ∅ /\
    forall (password : pystr) (now : string),
      a_level (check_strength password (Some bl) now) <> "Very Weak"%string.
Proof.
  intros E. exists ∅. split; [now apply load_blacklist_absent|].
  split; [reflexivity|].
  intros password now Hvw. apply very_weak_level_hit in Hvw.
  unfold blacklist_hit in Hvw. apply bool_decide_eq_true in Hvw.
  now apply not_elem_of_empty in Hvw.
Qed.

(** X17: the loader and the blacklist test agree: every line of the
    blacklist file that [strip] does not empty is, once stripped, a
    password that the analysis against the loaded set calls "Very Weak". *)
Theorem load_blacklist_then_check
    (path : pystr) (w w' : world) (lines : list pystr) (bl : gset pystr)
    (line : pystr) (now : string) :
  w_files w (script_dir_join path) = Some lines ->
  load_blacklist path w = (inr bl, w') ->
  line ∈ lines ->
  str_strip line <> [] ->
  a_level (check_strength (str_strip line) (Some bl) now) = "Very Weak"%string.
Proof.
  intros E Hload Hin Hne.
  rewrite (load_blacklist_present path w lines E) in Hload.
  injection Hload as <- _.
  apply very_weak_level_hit. unfold blacklist_hit.
  apply bool_decide_eq_true.
  rewrite elem_of_list_to_set, list_elem_of_fmap.
  exists line. split; [reflexivity|]. now apply nonblank_member.
Qed.

(** The loader always returns a set. *)
Lemma load_blacklist_total (path : pystr) (w : world) :
  exists (bl : gset pystr) (w1 : world), load_blacklist path w = (inr bl, w1).
Proof.
  destruct (w_files w (script_dir_join path)) as [lines|] eqn:E.
  - eexists _, _. exact (load_blacklist_present path w lines E).
  - eexists _, _. exact (load_blacklist_absent path w E).
Qed.

Lemma truthy_arg_some (a : option pystr) :
  truthy_arg a = true <-> exists s, a = Some s /\ s <> [].
Proof.
  destruct a as [s|]; simpl.
  - rewrite truthy_nonempty. split; [eauto|]. intros (s' & E & Hs). congruence.
  - split; [discriminate | intros (s & E & _); discriminate].
Qed.

(** The passwords of a batch, analyzed and reported one after the other. *)
Lemma io_for_analyze (bl : gset pystr) (passwords : list pystr) (w : world) :
  exists w' : world,
    io_for passwords
      (fun pwd => result ← io_check_strength pwd (Some bl); print_result result) w
      = (inr tt, w') /\
    w_stdout w' =
      w_stdout w
      ++ concat (map (fun pwd => map Printed (report_of pwd (Some bl))) passwords) /\
    w_stdin w' = w_stdin w /\ w_files w' = w_files w.
Proof.
  revert w. induction passwords as [|pwd ps IH]; intros w.
  - exists w. cbn [io_for map concat]. rewrite app_nil_r. auto.
  - destruct (IH (add_out (tick w) (map Printed (report_of pwd (Some bl)))))
      as (w' & E & Hout & Hin & Hfs).
    exists w'. cbn [io_for map concat].
    erewrite io_bind_ok by apply analyze_and_report.
    rewrite E, Hout, Hin, Hfs. cbn [add_out tick w_stdout w_stdin w_files].
    rewrite <- app_assoc. auto.
Qed.

(** [main] in the four modes. *)
Lemma main_generate_run (args : namespace) (w w1 : world) (bl : gset pystr)
    (pwd : pystr) (r' : rng) :
  args_generate args = true ->
  load_blacklist (args_blacklist args) w = (inr bl, w1) ->
  generate_password (args_gen_length args) (negb (args_no_upper args))
    (negb (args_no_digits args)) (negb (args_no_symbols args)) (w_rng w1)
    = (inr pwd, r') ->
  main args w =
    (inr tt,
     add_out (tick (set_rng w1 r'))
       (Printed ([10%N] ++ lit "Generated password: " ++ pwd)
        :: map Printed (report_of pwd (Some bl)))).
Proof.
  intros Hgen Hload Hpwd. unfold main.
  erewrite io_bind_ok by exact Hload. rewrite Hgen.
  erewrite io_bind_ok by (unfold io_gen; rewrite Hpwd; reflexivity).
  erewrite io_bind_ok by reflexivity.
  rewrite analyze_and_report, tick_add_out, add_out_app. reflexivity.
Qed.

Lemma main_password_run (args : namespace) (w w1 : world) (bl : gset pystr)
    (password : pystr) :
  args_generate args = false ->
  args_password args = Some password -> password <> [] ->
  load_blacklist (args_blacklist args) w = (inr bl, w1) ->
  main args w =
    (inr tt, add_out (tick w1) (map Printed (report_of password (Some bl)))).
Proof.
  intros Hgen Hpw Hne Hload. unfold main.
  erewrite io_bind_ok by exact Hload. rewrite Hgen, Hpw.
  change (default [] (Some password)) with password.
  cbn [truthy_arg]. rewrite (proj2 (truthy_nonempty password) Hne).
  apply analyze_and_report.
Qed.

Lemma main_file_missing_run (args : namespace) (w w1 : world) (bl : gset pystr)
    (file : pystr) :
  args_generate args = false -> truthy_arg (args_password args) = false ->
  args_file args = Some file -> file <> [] ->
  load_blacklist (args_blacklist args) w = (inr bl, w1) ->
  w_files w1 file = None ->
  main args w =
    (inl (SystemExit 1), add_out w1 [Printed (lit "Error: file not found.")]).
Proof.
  intros Hgen Hpw Hf Hne Hload Hmiss. unfold main.
  erewrite io_bind_ok by exact Hload. rewrite Hgen, Hpw, Hf.
  change (default [] (Some file)) with file.
  cbn [truthy_arg]. rewrite (proj2 (truthy_nonempty file) Hne).
  unfold os_path_isfile. erewrite io_bind_ok by reflexivity.
  rewrite Hmiss, bool_decide_eq_false_2 by (intros [x Hx]; discriminate).
  cbn [negb]. erewrite io_bind_ok by reflexivity. reflexivity.
Qed.

Lemma main_batch_run (args : namespace) (w w1 : world) (bl : gset pystr)
    (file : pystr) (lines : list pystr) :
  args_generate args = false -> truthy_arg (args_password args) = false ->
  args_file args = Some file -> file <> [] ->
  load_blacklist (args_blacklist args) w = (inr bl, w1) ->
  w_files w1 file = Some lines ->
  exists w2 : world,
    main args w = (inr tt, w2) /\
    w_stdout w2 =
      w_stdout w1
      ++ concat (map (fun pwd => map Printed (report_of pwd (Some bl)))
                   (map str_strip (nonblank lines)))
      ++ [Printed ([10%N] ++ lit "Analyzed "
                   ++ int_str (Z.of_nat (length (nonblank lines)))
                   ++ lit " passwords.")] /\
    w_stdin w2 = w_stdin w1.
Proof.
  intros Hgen Hpw Hf Hne Hload Hfile.
  destruct (io_for_analyze bl (map str_strip (nonblank lines)) w1)
    as (w' & E & Hout & Hin & Hfs).
  exists (add_out w' [Printed ([10%N] ++ lit "Analyzed "
                      ++ int_str (Z.of_nat (length (nonblank lines)))
                      ++ lit " passwords.")]).
  split; [|split].
  - unfold main.
    erewrite io_bind_ok by exact Hload. rewrite Hgen, Hpw, Hf.
    change (default [] (Some file)) with file.
  cbn [truthy_arg]. rewrite (proj2 (truthy_nonempty file) Hne).
    unfold os_path_isfile. erewrite io_bind_ok by reflexivity.
    rewrite Hfile, bool_decide_eq_true_2 by eauto.
    cbn [negb]. unfold read_lines.
    erewrite io_bind_ok by (rewrite Hfile; reflexivity).
    cbn zeta. erewrite io_bind_ok by exact E.
    rewrite length_map. reflexivity.
  - cbn [add_out w_stdout]. rewrite Hout, <- app_assoc. reflexivity.
  - exact Hin.
Qed.

Lemma main_interactive_run (args : namespace) (w w1 : world) (bl : gset pystr) :
  args_generate args = false -> truthy_arg (args_password args) = false ->
  truthy_arg (args_file args) = false ->
  load_blacklist (args_blacklist args) w = (inr bl, w1) ->
  main args w =
    let w2 := add_out w1 [Prompted (lit "Enter a password to analyze: ")] in
    match w_stdin w1 with
    | [] => (inl EOFError, w2)
    | [] :: rest =>
        (inl (SystemExit 0),
         add_out (set_stdin w2 rest) [Printed (lit "No password entered.")])
    | (c :: s) :: rest =>
        (inr tt,
         add_out (tick (set_stdin w2 rest))
           (map Printed (report_of (c :: s) (Some bl))))
    end.
Proof.
  intros Hgen Hpw Hf Hload. unfold main.
  erewrite io_bind_ok by exact Hload. rewrite Hgen, Hpw, Hf.
  cbn zeta. unfold py_input, read_line.
  destruct (w_stdin w1) as [|[|c s] rest] eqn:E.
  - erewrite io_bind_fail
      by (cbn [add_out w_stdin]; rewrite E; reflexivity).
    reflexivity.
  - erewrite io_bind_ok by (cbn [add_out w_stdin]; rewrite E; reflexivity).
    cbn [truthy negb]. erewrite io_bind_ok by reflexivity. reflexivity.
  - erewrite io_bind_ok by (cbn [add_out w_stdin]; rewrite E; reflexivity).
    cbn [truthy negb]. apply analyze_and_report.
Qed.

(** X18: with [--generate], [main] ends normally whatever length was asked
    for: after the loader's output it prints the generated password and
    then the report of its analysis against the loaded blacklist, and it
    reads nothing from the standard input. *)
Theorem main_generate_mode (args : namespace) (w w1 : world) (bl : gset pystr) :
  args_generate args = true ->
  load_blacklist (args_blacklist args) w = (inr bl, w1) ->
  exists pwd : pystr,
    fst (generate_password (args_gen_length args) (negb (args_no_upper args))
           (negb (args_no_digits args)) (negb (args_no_symbols args)) (w_rng w1))
      = inr pwd /\
    fst (main args w) = inr tt /\
    w_stdout (snd (main args w)) =
      w_stdout w1
      ++ Printed ([10%N] ++ lit "Generated password: " ++ pwd)
         :: map Printed (report_of pwd (Some bl)) /\
    w_stdin (snd (main args w)) = w_stdin w1.
Proof.
  intros Hgen Hload.
  destruct (generate_password_run (args_gen_length args)
              (negb (args_no_upper args)) (negb (args_no_digits args))
              (negb (args_no_symbols args)) (w_rng w1)) as (pwd & E & _ & _).
  exists pwd. rewrite (main_generate_run args w w1 bl pwd _ Hgen Hload E), E.
  repeat split.
Qed.

(** X19: with [--password] and a non-empty password, [main] ends normally
    and prints, after the loader's output, exactly the report of the
    analysis of that password against the loaded blacklist; the clock is
    read once. *)
Theorem main_password_mode (args : namespace) (w w1 : world) (bl : gset pystr)
    (password : pystr) :
  args_generate args = false ->
  args_password args = Some password -> password <> [] ->
  load_blacklist (args_blacklist args) w = (inr bl, w1) ->
  fst (main args w) = inr tt /\
  w_stdout (snd (main args w)) =
    w_stdout w1 ++ map Printed (report_of password (Some bl)) /\
  w_clock (snd (main args w)) = S (w_clock w1).
Proof.
  intros Hgen Hpw Hne Hload.
  rewrite (main_password_run args w w1 bl password Hgen Hpw Hne Hload).
  repeat split.
Qed.

(** X20: with [--file] and a path that is not a file, [main] prints
    "Error: file not found." and exits with status 1; no analysis is made
    (the clock is not read). *)
Theorem main_missing_file (args : namespace) (w w1 : world) (bl : gset pystr)
    (file : pystr) :
  args_generate args = false -> truthy_arg (args_password args) = false ->
  args_file args = Some file -> file <> [] ->
  load_blacklist (args_blacklist args) w = (inr bl, w1) ->
  w_files w1 file = None ->
  fst (main args w) = inl (SystemExit 1) /\
  w_stdout (snd (main args w)) =
    w_stdout w1 ++ [Printed (lit "Error: file not found.")] /\
  w_clock (snd (main args w)) = w_clock w1.
Proof.
  intros Hgen Hpw Hf Hne Hload Hmiss.
  rewrite (main_file_missing_run args w w1 bl file Hgen Hpw Hf Hne Hload Hmiss).
  repeat split.
Qed.

(** X21: with [--file] and an existing file, [main] ends normally; it
    prints one report for every line of the file that [strip] does not
    empty, in the order of the file and for the stripped line, and then the
    number of these lines. *)
Theorem main_batch_mode (args : namespace) (w w1 : world) (bl : gset pystr)
    (file : pystr) (lines : list pystr) :
  args_generate args = false -> truthy_arg (args_password args) = false ->
  args_file args = Some file -> file <> [] ->
  load_blacklist (args_blacklist args) w = (inr bl, w1) ->
  w_files w1 file = Some lines ->
  fst (main args w) = inr tt /\
  w_stdout (snd (main args w)) =
    w_stdout w1
    ++ concat (map (fun pwd => map Printed (report_of pwd (Some bl)))
                 (map str_strip (nonblank lines)))
    ++ [Printed ([10%N] ++ lit "Analyzed "
                 ++ int_str (Z.of_nat (length (nonblank lines)))
                 ++ lit " passwords.")].
Proof.
  intros Hgen Hpw Hf Hne Hload Hfile.
  destruct (main_batch_run args w w1 bl file lines Hgen Hpw Hf Hne Hload Hfile)
    as (w2 & E & Hout & _).
  rewrite E. split; [reflexivity | exact Hout].
Qed.

(** X22: with neither [--generate] nor a non-empty [--password] nor a
    non-empty [--file] (an empty string given for one of them counts as not
    given), [main] prompts for a password.  At the end of the input it
    raises [EOFError]; on an empty line it prints "No password entered."
    and exits with status 0; otherwise it prints the report of the line. *)
Theorem main_interactive_mode (args : namespace) (w w1 : world) (bl : gset pystr) :
  args_generate args = false -> truthy_arg (args_password args) = false ->
  truthy_arg (args_file args) = false ->
  load_blacklist (args_blacklist args) w = (inr bl, w1) ->
  fst (main args w) =
    match w_stdin w1 with
    | [] => inl EOFError
    | [] :: _ => inl (SystemExit 0)
    | (_ :: _) :: _ => inr tt
    end /\
  w_stdout (snd (main args w)) =
    w_stdout w1
    ++ Prompted (lit "Enter a password to analyze: ")
       :: match w_stdin w1 with
          | [] => []
          | [] :: _ => [Printed (lit "No password entered.")]
          | (c :: s) :: _ => map Printed (report_of (c :: s) (Some bl))
          end.
Proof.
  intros Hgen Hpw Hf Hload.
  rewrite (main_interactive_run args w w1 bl Hgen Hpw Hf Hload).
  cbn zeta. destruct (w_stdin w1) as [|[|c s] rest];
    cbn [fst snd add_out tick set_stdin w_stdout];
    rewrite <- ?app_assoc; split; reflexivity.
Qed.

End ProgramProperties.

(** ** The further properties at concrete inputs *)

Section MoreExamples.
#[local] Existing Instance reference_runtime.
#[local] Existing Instance reference_host.

Lemma calculate_entropy_length_classes_witness :
  length (lit "aaaa") = length (lit "abcd") /\
  char_classes (lit "aaaa") = char_classes (lit "abcd") /\
  calculate_entropy (lit "aaaa") = calculate_entropy (lit "abcd").
Proof.
  assert (length (lit "aaaa") = length (lit "abcd")) as Hlen by reflexivity.
  assert (char_classes (lit "aaaa") = char_classes (lit "abcd")) as Hcls
    by reflexivity.
  split; [exact Hlen|]. split; [exact Hcls|].
  exact (calculate_entropy_length_classes (lit "aaaa") (lit "abcd") Hlen Hcls).
Defined.

Lemma check_strength_strong_needs_witness :
  a_level (check_strength (lit "Tr0ub4dor&3xKcdZ") None "") = "Strong"%string /\
  12 <= a_length (check_strength (lit "Tr0ub4dor&3xKcdZ") None "") /\
  3 <= class_count (lit "Tr0ub4dor&3xKcdZ") /\
  blacklist_hit (lit "Tr0ub4dor&3xKcdZ") None = false.
Proof.
  split; [exact level_strong_password|].
  exact (check_strength_strong_needs (lit "Tr0ub4dor&3xKcdZ") None ""
           level_strong_password).
Defined.

Lemma check_strength_unlisted_witness :
  (str_lower (lit "Password2") ∉ ({[ lit "password1" ]} : gset pystr)) /\
  check_strength (lit "Password2") (Some {[ lit "password1" ]}) "" =
    check_strength (lit "Password2") None "".
Proof.
  assert (str_lower (lit "Password2") ∉ ({[ lit "password1" ]} : gset pystr))
    as Hnot by (rewrite elem_of_singleton; discriminate).
  split; [exact Hnot|].
  exact (check_strength_unlisted (lit "Password2") {[ lit "password1" ]} "" Hnot).
Defined.

Lemma check_strength_no_remarks_witness :
  a_remarks (check_strength (lit "Tr0ub4dor&3xKcdZ") None "") = [] /\
  5 <= a_score (check_strength (lit "Tr0ub4dor&3xKcdZ") None "").
Proof.
  assert (a_remarks (check_strength (lit "Tr0ub4dor&3xKcdZ") None "") = [])
    as Hnone by reflexivity.
  split; [exact Hnone|].
  exact (proj2 (check_strength_no_remarks (lit "Tr0ub4dor&3xKcdZ") None "") Hnone).
Defined.

Lemma generated_password_not_strong_witness :
  (8 < 12 \/ Z.b2z true + Z.b2z true + Z.b2z true <= 1) /\
  fst (generate_password 8 true true true counting_rng) = inr (lit "abcdefgh") /\
  a_level (check_strength (lit "abcdefgh") None "") <> "Strong"%string.
Proof.
  assert (8 < 12 \/ Z.b2z true + Z.b2z true + Z.b2z true <= 1) as Hweak
    by (left; lia).
  assert (fst (generate_password 8 true true true counting_rng)
          = inr (lit "abcdefgh")) as Hgen by reflexivity.
  split; [exact Hweak|]. split; [exact Hgen|].
  exact (generated_password_not_strong 8 true true true counting_rng
           (lit "abcdefgh") None "" Hweak Hgen).
Defined.

(** The blacklist file of the example world and what loading it gives. *)
Lemma example_blacklist_file :
  w_files example_world (script_dir_join (lit "common_pass.txt")) =
    Some [lit "Password1" ++ [10%N]; [10%N]; lit "  LetMeIn " ++ [10%N]].
Proof. reflexivity. Qed.

Lemma example_load_blacklist :
  load_blacklist (lit "common_pass.txt") example_world =
    (inr (list_to_set [lit "password1"; lit "letmein"]), example_world).
Proof.
  rewrite (load_blacklist_present _ _ _ example_blacklist_file). reflexivity.
Qed.

Lemma load_blacklist_members_witness :
  w_files example_world (script_dir_join (lit "common_pass.txt")) =
    Some [lit "Password1" ++ [10%N]; [10%N]; lit "  LetMeIn " ++ [10%N]] /\
  exists bl : gset pystr,
    load_blacklist (lit "common_pass.txt") example_world = (inr bl, example_world) /\
    forall x : pystr,
      x ∈ bl <->
      exists line,
        line ∈ [lit "Password1" ++ [10%N]; [10%N]; lit "  LetMeIn " ++ [10%N]] /\
        str_strip line <> [] /\ x = str_lower (str_strip line).
Proof.
  split; [exact example_blacklist_file|].
  exact (load_blacklist_members (lit "common_pass.txt") example_world _
           example_blacklist_file).
Defined.

Lemma load_blacklist_missing_witness :
  w_files example_world (script_dir_join (lit "none.txt")) = None /\
  exists bl : gset pystr,
    load_blacklist (lit "none.txt") example_world =
      (inr bl,
       add_out example_world
         [Printed (lit "Blacklist file not found at: "
                   ++ script_dir_join (lit "none.txt"))]) /\
    bl = ∅ /\
    forall (password : pystr) (now : string),
      a_level (check_strength password (Some bl) now) <> "Very Weak"%string.
Proof.
  assert (w_files example_world (script_dir_join (lit "none.txt")) = None)
    as Hnone by reflexivity.
  split; [exact Hnone|].
  exact (load_blacklist_missing (lit "none.txt") example_world Hnone).
Defined.

Lemma load_blacklist_then_check_witness :
  (lit "  LetMeIn " ++ [10%N])
    ∈ [lit "Password1" ++ [10%N]; [10%N]; lit "  LetMeIn " ++ [10%N]] /\
  str_strip (lit "  LetMeIn " ++ [10%N]) <> [] /\
  a_level (check_strength (str_strip (lit "  LetMeIn " ++ [10%N]))
             (Some (list_to_set [lit "password1"; lit "letmein"])) "")
    = "Very Weak"%string.
Proof.
  assert ((lit "  LetMeIn " ++ [10%N])
            ∈ [lit "Password1" ++ [10%N]; [10%N]; lit "  LetMeIn " ++ [10%N]])
    as Hin by (apply list_elem_of_In; simpl; auto).
  assert (str_strip (lit "  LetMeIn " ++ [10%N]) <> []) as Hne by discriminate.
  split; [exact Hin|]. split; [exact Hne|].
  exact (load_blacklist_then_check (lit "common_pass.txt") example_world
           example_world _ _ _ "" example_blacklist_file example_load_blacklist
           Hin Hne).
Defined.

Lemma main_generate_mode_witness :
  args_generate (example_args None None true) = true /\
  fst (main (example_args None None true) example_world) = inr tt.
Proof.
  assert (args_generate (example_args None None true) = true) as Hgen
    by reflexivity.
  split; [exact Hgen|].
  destruct (main_generate_mode (example_args None None true) example_world
              example_world _ Hgen example_load_blacklist)
    as (pwd & _ & Hok & _).
  exact Hok.
Defined.

Lemma main_password_mode_witness :
  args_password (example_args (Some (lit "Password1")) None false)
    = Some (lit "Password1") /\
  lit "Password1" <> [] /\
  fst (main (example_args (Some (lit "Password1")) None false) example_world)
    = inr tt /\
  w_stdout (snd (main (example_args (Some (lit "Password1")) None false)
                   example_world)) =
    w_stdout example_world
    ++ map Printed (report_of (lit "Password1")
                      (Some (list_to_set [lit "password1"; lit "letmein"]))) /\
  w_clock (snd (main (example_args (Some (lit "Password1")) None false)
                  example_world)) = S (w_clock example_world).
Proof.
  assert (lit "Password1" <> []) as Hne by discriminate.
  split; [reflexivity|]. split; [exact Hne|].
  exact (main_password_mode (example_args (Some (lit "Password1")) None false)
           example_world example_world _ (lit "Password1")
           eq_refl eq_refl Hne example_load_blacklist).
Defined.

Lemma main_missing_file_witness :
  w_files example_world (lit "nowhere.txt") = None /\
  fst (main (example_args None (Some (lit "nowhere.txt")) false) example_world)
    = inl (SystemExit 1).
Proof.
  assert (w_files example_world (lit "nowhere.txt") = None) as Hmiss
    by reflexivity.
  assert (lit "nowhere.txt" <> []) as Hne by discriminate.
  split; [exact Hmiss|].
  exact (proj1 (main_missing_file
                  (example_args None (Some (lit "nowhere.txt")) false)
                  example_world example_world _ (lit "nowhere.txt")
                  eq_refl eq_refl eq_refl Hne example_load_blacklist Hmiss)).
Defined.

Lemma main_batch_mode_witness :
  w_files example_world (lit "batch.txt")
    = Some [lit "abc" ++ [10%N]; lit "   " ++ [10%N]; lit "qwerty123"] /\
  fst (main (example_args None (Some (lit "batch.txt")) false) example_world)
    = inr tt.
Proof.
  assert (w_files example_world (lit "batch.txt")
          = Some [lit "abc" ++ [10%N]; lit "   " ++ [10%N]; lit "qwerty123"])
    as Hfile by reflexivity.
  assert (lit "batch.txt" <> []) as Hne by discriminate.
  split; [exact Hfile|].
  exact (proj1 (main_batch_mode
                  (example_args None (Some (lit "batch.txt")) false)
                  example_world example_world _ (lit "batch.txt") _
                  eq_refl eq_refl eq_refl Hne example_load_blacklist Hfile)).
Defined.

(** An empty [--password] is taken as none: the program prompts. *)
Lemma main_interactive_mode_witness :
  truthy_arg (args_password (example_args (Some []) None false)) = false /\
  fst (main (example_args (Some []) None false) example_world) = inr tt.
Proof.
  split; [reflexivity|].
  exact (proj1 (main_interactive_mode (example_args (Some []) None false)
                  example_world example_world _
                  eq_refl eq_refl eq_refl example_load_blacklist)).
Defined.

End MoreExamples.
